(** * Lifecycle orchestration of the on-demand Minecraft server

    A shallow embedding of the procedural parts of
    [minecraft_server/minecraft_server_stack.py]: the five inline Lambda
    handlers, the API handler, the two Step Functions definitions that chain
    them, and the sizing lookup at the head of the stack constructor.

    Python values are an inductive type, dictionaries keep insertion order,
    the control plane of the cloud provider is an explicit world that every
    boto3 call reads, updates and logs into, and a handler is a function from
    its event to a computation over that world which returns a value or
    raises. *)

From Stdlib Require Import ZArith List String Ascii Bool Lia.
From Stdlib Require Import DecimalString.
From stdpp Require Import base option gmap strings.

Import ListNotations.
Set Warnings "-register-all".
Local Open Scope Z_scope.
Local Open Scope string_scope.

(* ===================================================================== *)
(** ** Python values                                                      *)
(* ===================================================================== *)

Module Py.

(** The values the handlers exchange: events, boto3 responses and returned
    payloads are JSON-like. A [VDict] keeps its items in insertion order, as
    a Python dict does; keys are strings throughout the source. *)
Inductive value : Type :=
| VNone
| VBool (b : bool)
| VInt (n : Z)
| VStr (s : string)
| VList (l : list value)
| VDict (d : list (string * value)).

(** The exceptions the modelled code can raise. [KeyError] carries the
    missing key, [WaiterError] the reason botocore gives, [ClientError] the
    error code of a control-plane call that was refused, [Timeout] what the
    platform reports for a function that did not return in its time. *)
Inductive exn : Type :=
| KeyError (k : value)
| TypeError (msg : string)
| AttributeError (msg : string)
| IndexError (msg : string)
| WaiterError (reason : string)
| ClientError (code : string)
| Timeout (what : string).

Inductive result (A : Type) : Type :=
| Ok (a : A)
| Raise (e : exn).
Arguments Ok {A} a.
Arguments Raise {A} e.

(** Truth value of an object, as [if x:] and [not x] test it. *)
Definition truthy (v : value) : bool :=
  match v with
  | VNone => false
  | VBool b => b
  | VInt n => negb (Z.eqb n 0)
  | VStr s => negb (String.eqb s EmptyString)
  | VList l => match l with [] => false | _ => true end
  | VDict d => match d with [] => false | _ => true end
  end.

(** [x or y]. *)
Definition py_or (x y : value) : value := if truthy x then x else y.

(** [v == s] for a string literal [s]: only a string equals a string. *)
Definition eq_str (v : value) (s : string) : bool :=
  match v with
  | VStr t => String.eqb t s
  | _ => false
  end.

(** Lookup in the items of a dict. *)
Fixpoint assoc (k : string) (d : list (string * value)) : option value :=
  match d with
  | [] => None
  | (k', v) :: d' => if String.eqb k k' then Some v else assoc k d'
  end.

(** [d[k] = v] on the items: an existing key keeps its place. *)
Fixpoint assoc_set (k : string) (v : value) (d : list (string * value))
  : list (string * value) :=
  match d with
  | [] => [(k, v)]
  | (k', v') :: d' =>
      if String.eqb k k' then (k, v) :: d' else (k', v') :: assoc_set k v d'
  end.

(** [o.get(k, default)]: defined on dicts only. *)
Definition get (o : value) (k : string) (default : value) : result value :=
  match o with
  | VDict d => Ok (match assoc k d with Some v => v | None => default end)
  | _ => Raise (AttributeError "object has no attribute get")
  end.

(** [o[k]] with a string key: [KeyError] on a dict without the key. *)
Definition getitem (o : value) (k : string) : result value :=
  match o with
  | VDict d =>
      match assoc k d with
      | Some v => Ok v
      | None => Raise (KeyError (VStr k))
      end
  | _ => Raise (TypeError "object is not subscriptable by this key")
  end.

(** [o[0]]: the first element of a list, the first character of a string;
    a dict has no key 0 here, its keys being strings. *)
Definition first (o : value) : result value :=
  match o with
  | VList (v :: _) => Ok v
  | VList [] => Raise (IndexError "list index out of range")
  | VStr (String c _) => Ok (VStr (String c EmptyString))
  | VStr EmptyString => Raise (IndexError "string index out of range")
  | VDict d => Raise (KeyError (VInt 0))
  | _ => Raise (TypeError "object is not subscriptable")
  end.

(** The elements a [for] loop runs over. *)
Definition iter (o : value) : result (list value) :=
  match o with
  | VList l => Ok l
  | VDict d => Ok (map (fun kv => VStr (fst kv)) d)
  | VStr s =>
      Ok (map (fun c => VStr (String c EmptyString)) (list_ascii_of_string s))
  | _ => Raise (TypeError "object is not iterable")
  end.

(** Sequencing of computations that return or raise. *)
Definition and_then {A B} (r : result A) (k : A -> result B) : result B :=
  match r with
  | Ok a => k a
  | Raise e => Raise e
  end.

(** [len(o)]. *)
Definition len (o : value) : result Z :=
  match o with
  | VList l => Ok (Z.of_nat (length l))
  | VDict d => Ok (Z.of_nat (length d))
  | VStr s => Ok (Z.of_nat (String.length s))
  | _ => Raise (TypeError "object has no len")
  end.

(** Whether the object can be a dict key: lists and dicts cannot. *)
Definition hashable (v : value) : bool :=
  match v with
  | VList _ | VDict _ => false
  | _ => true
  end.

(** *** [json.dumps] with its default arguments

    Items are separated by comma-space, key and value by colon-space, and
    (ensure_ascii) every character outside the printable ASCII range is
    written as a backslash-u escape. Strings are sequences of code points
    below 256 here. *)

Definition quote : ascii := "034"%char.
Definition backslash : ascii := "092"%char.

Definition hex_digit (n : nat) : ascii :=
  match n with
  | 0 => "0" | 1 => "1" | 2 => "2" | 3 => "3" | 4 => "4"
  | 5 => "5" | 6 => "6" | 7 => "7" | 8 => "8" | 9 => "9"
  | 10 => "a" | 11 => "b" | 12 => "c" | 13 => "d" | 14 => "e"
  | _ => "f"
  end%nat%char.

Definition escape_char (c : ascii) : string :=
  let n := nat_of_ascii c in
  if Ascii.eqb c quote then String backslash (String quote EmptyString)
  else if Ascii.eqb c backslash then String backslash (String backslash EmptyString)
  else if Nat.eqb n 10 then String backslash "n"
  else if Nat.eqb n 13 then String backslash "r"
  else if Nat.eqb n 9 then String backslash "t"
  else if Nat.eqb n 8 then String backslash "b"
  else if Nat.eqb n 12 then String backslash "f"
  else if (Nat.leb 32 n && Nat.leb n 126)%bool then String c EmptyString
  else String backslash
         (String "u" (String "0" (String "0"
            (String (hex_digit (Nat.div n 16))
               (String (hex_digit (Nat.modulo n 16)) EmptyString))))).

Fixpoint escape (s : string) : string :=
  match s with
  | EmptyString => EmptyString
  | String c s' => escape_char c ++ escape s'
  end.

Definition dumps_str (s : string) : string :=
  String quote (escape s ++ String quote EmptyString).

Definition dumps_int (n : Z) : string :=
  NilZero.string_of_int (Z.to_int n).

Fixpoint dumps (v : value) : string :=
  match v with
  | VNone => "null"
  | VBool true => "true"
  | VBool false => "false"
  | VInt n => dumps_int n
  | VStr s => dumps_str s
  | VList l =>
      "[" ++
      (fix items (l : list value) : string :=
         match l with
         | [] => EmptyString
         | [x] => dumps x
         | x :: l' => dumps x ++ ", " ++ items l'
         end) l ++ "]"
  | VDict d =>
      "{" ++
      (fix items (d : list (string * value)) : string :=
         match d with
         | [] => EmptyString
         | [(k, x)] => dumps_str k ++ ": " ++ dumps x
         | (k, x) :: d' => dumps_str k ++ ": " ++ dumps x ++ ", " ++ items d'
         end) d ++ "}"
  end.

End Py.

Notation "'let?' x := r 'in' k" := (Py.and_then r (fun x => k))
  (at level 10, x name, r at level 100, k at level 200).
Import Py.

(* ===================================================================== *)
(** ** [datetime] and its ISO-8601 rendering                              *)
(* ===================================================================== *)

Module Datetime.

Record datetime : Type := {
  year : Z;
  month : Z;
  day : Z;
  hour : Z;
  minute : Z;
  second : Z;
  microsecond : Z
}.

(** The ranges the fields of a [datetime] object lie in. *)
Definition valid (t : datetime) : Prop :=
  1 <= year t <= 9999 /\ 1 <= month t <= 12 /\ 1 <= day t <= 31 /\
  0 <= hour t < 24 /\ 0 <= minute t < 60 /\ 0 <= second t < 60 /\
  0 <= microsecond t < 1000000.

Definition digit (n : Z) : ascii := ascii_of_nat (Z.to_nat (48 + n)).

(** [n] in [w] decimal digits, most significant first: what the format
    [%0wd] prints for [0 <= n < 10 ^ w]. *)
Fixpoint pad (w : nat) (n : Z) : string :=
  match w with
  | O => EmptyString
  | S w' =>
      String (digit (n / 10 ^ Z.of_nat w')) (pad w' (n mod 10 ^ Z.of_nat w'))
  end.

(** [t.isoformat()]: the fraction is written only when it is not zero. *)
Definition isoformat (t : datetime) : string :=
  pad 4 (year t) ++ "-" ++ pad 2 (month t) ++ "-" ++ pad 2 (day t) ++ "T" ++
  pad 2 (hour t) ++ ":" ++ pad 2 (minute t) ++ ":" ++ pad 2 (second t) ++
  (if Z.eqb (microsecond t) 0 then EmptyString
   else "." ++ pad 6 (microsecond t)).

(** Reading the rendering back: exactly [w] digits, then the rest. *)
Fixpoint read (w : nat) (acc : Z) (s : string) : option (Z * string) :=
  match w with
  | O => Some (acc, s)
  | S w' =>
      match s with
      | String c s' =>
          let d := Z.of_nat (nat_of_ascii c) in
          if (Z.leb 48 d && Z.leb d 57)%bool
          then read w' (10 * acc + (d - 48)) s'
          else None
      | EmptyString => None
      end
  end.

Definition expect (c : ascii) (s : string) : option string :=
  match s with
  | String c' s' => if Ascii.eqb c c' then Some s' else None
  | EmptyString => None
  end.

Definition fromisoformat (s : string) : option datetime :=
  '(y, s) ← read 4 0 s; s ← expect "-" s;
  '(mo, s) ← read 2 0 s; s ← expect "-" s;
  '(d, s) ← read 2 0 s; s ← expect "T" s;
  '(h, s) ← read 2 0 s; s ← expect ":" s;
  '(mi, s) ← read 2 0 s; s ← expect ":" s;
  '(se, s) ← read 2 0 s;
  match s with
  | EmptyString => Some (Build_datetime y mo d h mi se 0)
  | _ =>
      s ← expect "." s;
      '(us, s) ← read 6 0 s;
      match s with
      | EmptyString =>
          if Z.eqb us 0 then None else Some (Build_datetime y mo d h mi se us)
      | _ => None
      end
  end.

(** Removal of a fixed prefix and of a fixed suffix. *)
Fixpoint strip_prefix (p s : string) : option string :=
  match p with
  | EmptyString => Some s
  | String c p' =>
      match s with
      | String c' s' => if Ascii.eqb c c' then strip_prefix p' s' else None
      | EmptyString => None
      end
  end.

Definition strip_suffix (q s : string) : option string :=
  let n := (String.length s - String.length q)%nat in
  if String.eqb (substring n (String.length q) s) q
  then Some (substring 0 n s)
  else None.

End Datetime.
Import Datetime.

(* ===================================================================== *)
(** ** The control plane                                                  *)
(* ===================================================================== *)

Module Aws.

(** Every boto3 call and every [time.sleep] leaves an entry in the log of
    the world, oldest first. *)
Inductive api_call : Type :=
| UpdateService (cluster service : string) (desiredCount : Z)
| ListTasks (cluster desiredStatus : string)
| DescribeTasks (cluster : value) (tasks : list value)
| DescribeNetworkInterfaces (ids : list value)
| StartExecution (stateMachineArn input : string)
| ChangeResourceRecordSets (hostedZoneId : string) (changeBatch : value)
| Sleep (seconds : Z).

(** The world a handler runs in. The desired count of each ECS service is
    state the handlers write; what ECS, EC2, Step Functions and Route53
    answer is given by the world, as a function of the time elapsed where
    the answer changes out of band. *)
Record World : Type := {
  clock : Z;
  wall_clock : Z -> datetime;
  ecs_services : gmap (string * string) Z;
  ecs_list_tasks : Z -> string -> string -> result value;
  ecs_describe_tasks : Z -> value -> list value -> result value;
  ec2_describe_network_interfaces : Z -> list value -> result value;
  sfn_execution_arn : nat -> string;
  route53_change_id : nat -> string;
  calls : list api_call
}.

Definition log (c : api_call) (w : World) : World :=
  {| clock := clock w;
     wall_clock := wall_clock w;
     ecs_services := ecs_services w;
     ecs_list_tasks := ecs_list_tasks w;
     ecs_describe_tasks := ecs_describe_tasks w;
     ec2_describe_network_interfaces := ec2_describe_network_interfaces w;
     sfn_execution_arn := sfn_execution_arn w;
     route53_change_id := route53_change_id w;
     calls := calls w ++ [c] |}.

Definition set_desired (k : string * string) (n : Z) (w : World) : World :=
  {| clock := clock w;
     wall_clock := wall_clock w;
     ecs_services := <[k := n]> (ecs_services w);
     ecs_list_tasks := ecs_list_tasks w;
     ecs_describe_tasks := ecs_describe_tasks w;
     ec2_describe_network_interfaces := ec2_describe_network_interfaces w;
     sfn_execution_arn := sfn_execution_arn w;
     route53_change_id := route53_change_id w;
     calls := calls w |}.

Definition advance (n : Z) (w : World) : World :=
  {| clock := clock w + n;
     wall_clock := wall_clock w;
     ecs_services := ecs_services w;
     ecs_list_tasks := ecs_list_tasks w;
     ecs_describe_tasks := ecs_describe_tasks w;
     ec2_describe_network_interfaces := ec2_describe_network_interfaces w;
     sfn_execution_arn := sfn_execution_arn w;
     route53_change_id := route53_change_id w;
     calls := calls w |}.

(** A computation over the world that returns or raises. *)
Definition M (A : Type) : Type := World -> result A * World.

Definition ret {A} (a : A) : M A := fun w => (Ok a, w).

Definition raise {A} (e : exn) : M A := fun w => (Raise e, w).

Definition bind {A B} (m : M A) (k : A -> M B) : M B :=
  fun w =>
    match m w with
    | (Ok a, w') => k a w'
    | (Raise e, w') => (Raise e, w')
    end.

Definition lift {A} (r : result A) : M A := fun w => (r, w).

End Aws.
Import Aws.

Notation "'let*' x := m 'in' k" := (bind m (fun x => k))
  (at level 10, x name, m at level 100, k at level 200).
Notation "m ;; k" := (bind m (fun _ => k))
  (at level 100, k at level 200, right associativity).

Module Boto3.

(** [os.environ[k]]. *)
Definition environ_getitem (environ : gmap string string) (k : string)
  : result string :=
  match environ !! k with
  | Some v => Ok v
  | None => Raise (KeyError (VStr k))
  end.

(** [os.environ.get(k, default)]. *)
Definition environ_get (environ : gmap string string) (k default : string)
  : string :=
  match environ !! k with
  | Some v => v
  | None => default
  end.

(** [ecs.update_service]: records the desired count of an existing
    service; the instance transition it causes happens out of band. *)
Definition update_service (cluster service : string) (desiredCount : Z)
  : M value :=
  fun w =>
    let w1 := log (UpdateService cluster service desiredCount) w in
    match ecs_services w !! (cluster, service) with
    | Some _ =>
        (Ok (VDict [("service",
                     VDict [("serviceName", VStr service);
                            ("desiredCount", VInt desiredCount)])]),
         set_desired (cluster, service) desiredCount w1)
    | None => (Raise (ClientError "ServiceNotFoundException"), w1)
    end.

Definition list_tasks (cluster desiredStatus : string) : M value :=
  fun w =>
    (ecs_list_tasks w (clock w) cluster desiredStatus,
     log (ListTasks cluster desiredStatus) w).

Definition describe_tasks (cluster : value) (tasks : list value) : M value :=
  fun w =>
    (ecs_describe_tasks w (clock w) cluster tasks,
     log (DescribeTasks cluster tasks) w).

Definition describe_network_interfaces (ids : list value) : M value :=
  fun w =>
    (ec2_describe_network_interfaces w (clock w) ids,
     log (DescribeNetworkInterfaces ids) w).

(** [sfn.start_execution]: the execution is recorded and its identifier
    returned; the call does not wait for the execution. *)
Definition start_execution (stateMachineArn input : string) : M value :=
  fun w =>
    (Ok (VDict [("executionArn",
                 VStr (sfn_execution_arn w (length (calls w))))]),
     log (StartExecution stateMachineArn input) w).

Definition change_resource_record_sets (zone : string) (batch : value)
  : M value :=
  fun w =>
    (Ok (VDict [("ChangeInfo",
                 VDict [("Id", VStr (route53_change_id w (length (calls w))))])]),
     log (ChangeResourceRecordSets zone batch) w).

(** [time.sleep(n)]. *)
Definition sleep (n : Z) : M unit :=
  fun w => (Ok tt, log (Sleep n) (advance n w)).

(** [datetime.utcnow()]. *)
Definition utcnow : M datetime :=
  fun w => (Ok (wall_clock w (clock w)), w).

End Boto3.
Import Boto3.

(* ===================================================================== *)
(** ** The [tasks_running] waiter of botocore                             *)
(* ===================================================================== *)

Module Waiter.

(** The JMESPath expression [coll[].field] on a response: the collection is
    flattened one level, the field projected, nulls dropped. [None] when
    the expression yields no list. *)
Definition flatten (l : list value) : list value :=
  flat_map (fun x => match x with VList l' => l' | _ => [x] end) l.

Definition project (field : string) (l : list value) : list value :=
  flat_map (fun x =>
              match x with
              | VDict e =>
                  match assoc field e with
                  | Some VNone | None => []
                  | Some v => [v]
                  end
              | _ => []
              end) l.

Definition search (coll field : string) (response : value)
  : option (list value) :=
  match response with
  | VDict d =>
      match assoc coll d with
      | Some (VList l) => Some (project field (flatten l))
      | _ => None
      end
  | _ => None
  end.

(** The [pathAny] and [pathAll] matchers: both are false on an empty
    result. *)
Definition path_any (coll field expected : string) (response : value) : bool :=
  match search coll field response with
  | Some (x :: l) => existsb (fun v => eq_str v expected) (x :: l)
  | _ => false
  end.

Definition path_all (coll field expected : string) (response : value) : bool :=
  match search coll field response with
  | Some (x :: l) => forallb (fun v => eq_str v expected) (x :: l)
  | _ => false
  end.

Inductive waiter_state : Type := Waiting | Success | Failure.

(** The acceptors of [TasksRunning], tried in their order. *)
Definition tasks_running_state (response : value) : waiter_state :=
  if path_any "tasks" "lastStatus" "STOPPED" response then Failure
  else if path_any "failures" "reason" "MISSING" response then Failure
  else if path_all "tasks" "lastStatus" "RUNNING" response then Success
  else Waiting.

(** The loop of [Waiter.wait]: call, count the attempt, match, give up at
    [max_attempts], else sleep and go round. The source loops [while True];
    [fuel] bounds the rounds here and [None] says it ran out. An error
    response of the service matches no acceptor and ends the wait. *)
Fixpoint wait_loop (fuel : nat) (cluster : value) (tasks : list value)
    (sleep_amount max_attempts num_attempts : Z) (w : World)
  : option (result unit * World) :=
  match fuel with
  | O => None
  | S fuel' =>
      match describe_tasks cluster tasks w with
      | (Raise (ClientError c), w1) =>
          Some (Raise (WaiterError "An error occurred"), w1)
      | (Raise e, w1) => Some (Raise e, w1)
      | (Ok response, w1) =>
          let num_attempts := num_attempts + 1 in
          match tasks_running_state response with
          | Success => Some (Ok tt, w1)
          | Failure =>
              Some (Raise (WaiterError
                             "Waiter encountered a terminal failure state"), w1)
          | Waiting =>
              if Z.leb max_attempts num_attempts
              then Some (Raise (WaiterError "Max attempts exceeded"), w1)
              else wait_loop fuel' cluster tasks sleep_amount max_attempts
                     num_attempts (snd (sleep sleep_amount w1))
          end
      end
  end.

(** [waiter.wait(cluster=..., tasks=..., WaiterConfig={'Delay': d,
    'MaxAttempts': m})]. The loop makes at least one attempt and at most
    [m], so that many rounds of fuel are enough ([wait_loop_enough]). *)
Definition wait (cluster : value) (tasks : list value)
    (delay max_attempts : Z) : M unit :=
  fun w =>
    match wait_loop (Z.to_nat (Z.max 1 max_attempts)) cluster tasks
            delay max_attempts 0 w with
    | Some r => r
    | None => (Raise (Timeout "waiter"), w)
    end.

End Waiter.
Import Waiter.

(* ===================================================================== *)
(** ** The Lambda functions of the stack                                  *)
(* ===================================================================== *)

Module Handlers.

(** What the stack constructor splices into the inline sources and the
    environments of the functions: names and ARNs the deployment resolves,
    and the Route53 options of the configuration. *)
Record deployment : Type := {
  cluster_name : string;
  service_name : string;
  bucket_name : string;
  start_state_machine_arn : string;
  stop_state_machine_arn : string;
  enable_route53 : value;
  hosted_zone_id : string;
  domain_name : string
}.

(** A [lambda_.Function]: the inline [handler], run with the environment
    the stack gives the function, and its timeout in seconds. *)
Record lambda : Type := {
  handler : gmap string string -> value -> M value;
  environment : gmap string string;
  timeout : Z
}.

Definition invoke (f : lambda) (event : value) : M value :=
  handler f (environment f) event.

(** *** StartTaskFunction *)

Definition start_task_handler (environ : gmap string string) (event : value)
  : M value :=
  let* cluster := lift (environ_getitem environ "CLUSTER_NAME") in
  let* service := lift (environ_getitem environ "SERVICE_NAME") in
  update_service cluster service 1 ;;
  ret (VDict [("statusCode", VInt 200); ("message", VStr "Server started")]).

Definition start_task_lambda (d : deployment) : lambda :=
  {| handler := start_task_handler;
     environment :=
       <["CLUSTER_NAME" := cluster_name d]>
         (<["SERVICE_NAME" := service_name d]> ∅);
     timeout := 30 |}.

(** *** GetIPFunction *)

(** The inner loop over the details of one attachment: the first detail
    named [networkInterfaceId] sets [eni_id] and breaks. *)
Fixpoint scan_details (details : list value) (eni_id : value) : result value :=
  match details with
  | [] => Ok eni_id
  | detail :: rest =>
      let? name := getitem detail "name" in
      if eq_str name "networkInterfaceId"
      then getitem detail "value"
      else scan_details rest eni_id
  end.

(** The outer loop: the break leaves the inner loop only, so a later
    attachment can set [eni_id] again. *)
Fixpoint scan_attachments (attachments : list value) (eni_id : value)
  : result value :=
  match attachments with
  | [] => Ok eni_id
  | attachment :: rest =>
      let? details := get attachment "details" (VList []) in
      let? details := iter details in
      let? eni_id := scan_details details eni_id in
      scan_attachments rest eni_id
  end.

(** The two loops from [eni_id = None] on, over the attachments of the
    task. *)
Definition find_eni_id (task : value) : result value :=
  let? attachments := get task "attachments" (VList []) in
  let? attachments := iter attachments in
  scan_attachments attachments VNone.

(** [eni_response['NetworkInterfaces'][0].get('Association', {})
    .get('PublicIp', '')]. *)
Definition read_public_ip (eni_response : value) : result value :=
  let? interfaces := getitem eni_response "NetworkInterfaces" in
  let? interface := first interfaces in
  let? association := get interface "Association" (VDict []) in
  get association "PublicIp" (VStr EmptyString).

Definition get_ip_handler (environ : gmap string string) (event : value)
  : M value :=
  let* cluster := lift (getitem event "cluster") in
  let* task_arn := lift (getitem event "taskArn") in
  wait cluster [task_arn] 6 20 ;;
  let* response := describe_tasks cluster [task_arn] in
  let* task := lift (let? tasks := getitem response "tasks" in first tasks) in
  let* eni_id := lift (find_eni_id task) in
  if truthy eni_id then
    let* eni_response := describe_network_interfaces [eni_id] in
    let* public_ip := lift (read_public_ip eni_response) in
    ret (VDict [("statusCode", VInt 200);
                ("publicIp", public_ip);
                ("taskArn", task_arn)])
  else
    ret (VDict [("statusCode", VInt 500); ("error", VStr "No IP found")]).

Definition get_ip_lambda : lambda :=
  {| handler := get_ip_handler; environment := ∅; timeout := 30 |}.

(** *** BackupFunction *)

Definition backup_key (timestamp : string) : string :=
  "backups/world-" ++ timestamp ++ ".tar.gz".

Definition backup_handler (d : deployment) (environ : gmap string string)
    (event : value) : M value :=
  let* cluster := lift (getitem event "cluster") in
  let* task_arn := lift (getitem event "taskArn") in
  let bucket := bucket_name d in
  let* now := utcnow in
  let timestamp := isoformat now in
  ret (VDict [("statusCode", VInt 200);
              ("backupKey", VStr (backup_key timestamp));
              ("timestamp", VStr timestamp)]).

Definition backup_lambda (d : deployment) : lambda :=
  {| handler := backup_handler d;
     environment := <["BUCKET_NAME" := bucket_name d]> ∅;
     timeout := 300 |}.

(** *** StopTaskFunction *)

Definition stop_task_handler (environ : gmap string string) (event : value)
  : M value :=
  let* cluster := lift (environ_getitem environ "CLUSTER_NAME") in
  let* service := lift (environ_getitem environ "SERVICE_NAME") in
  update_service cluster service 0 ;;
  ret (VDict [("statusCode", VInt 200); ("message", VStr "Server stopped")]).

Definition stop_task_lambda (d : deployment) : lambda :=
  {| handler := stop_task_handler;
     environment :=
       <["CLUSTER_NAME" := cluster_name d]>
         (<["SERVICE_NAME" := service_name d]> ∅);
     timeout := 30 |}.

(** *** UpdateDNSFunction *)

Definition update_dns_handler (environ : gmap string string) (event : value)
  : M value :=
  let enabled := String.eqb (environ_get environ "ENABLED" "false") "true" in
  if negb enabled then
    ret (VDict [("statusCode", VInt 200); ("message", VStr "Route53 disabled")])
  else
    let* hosted_zone_id := lift (environ_getitem environ "HOSTED_ZONE_ID") in
    let* domain_name := lift (environ_getitem environ "DOMAIN_NAME") in
    let* public_ip := lift (get event "publicIp" (VStr EmptyString)) in
    if negb (truthy public_ip) then
      ret (VDict [("statusCode", VInt 400); ("error", VStr "No IP provided")])
    else
      let* response :=
        change_resource_record_sets hosted_zone_id
          (VDict [("Changes",
             VList [VDict [("Action", VStr "UPSERT");
                           ("ResourceRecordSet",
                            VDict [("Name", VStr domain_name);
                                   ("Type", VStr "A");
                                   ("TTL", VInt 60);
                                   ("ResourceRecords",
                                    VList [VDict [("Value", public_ip)]])])]])]) in
      let* change_id :=
        lift (let? info := getitem response "ChangeInfo" in getitem info "Id") in
      ret (VDict [("statusCode", VInt 200); ("changeId", change_id)]).

Definition update_dns_lambda (d : deployment) : lambda :=
  {| handler := update_dns_handler;
     environment :=
       <["ENABLED" := if truthy (enable_route53 d) then "true" else "false"]>
         (<["HOSTED_ZONE_ID" := hosted_zone_id d]>
            (<["DOMAIN_NAME" := domain_name d]> ∅));
     timeout := 30 |}.

(** *** ApiHandler *)

(** [event.get('pathParameters', {}).get('action', '')]. *)
Definition get_action (event : value) : result value :=
  let? path_parameters := get event "pathParameters" (VDict []) in
  get path_parameters "action" (VStr EmptyString).

Definition response (status : Z) (body : value) : value :=
  VDict [("statusCode", VInt status); ("body", VStr (dumps body))].

Definition api_handler (d : deployment) (environ : gmap string string)
    (event : value) : M value :=
  let* action := lift (get_action event) in
  if eq_str action "start" then
    let* started :=
      start_execution (start_state_machine_arn d) (dumps (VDict [])) in
    let* execution_arn := lift (getitem started "executionArn") in
    ret (response 200 (VDict [("message", VStr "Server starting");
                              ("executionArn", execution_arn)]))
  else if eq_str action "stop" then
    let* tasks := list_tasks (cluster_name d) "RUNNING" in
    let* task_arns := lift (get tasks "taskArns" VNone) in
    if negb (truthy task_arns) then
      ret (response 404 (VDict [("error", VStr "No running server found")]))
    else
      let* task_arn :=
        lift (let? task_arns := getitem tasks "taskArns" in first task_arns) in
      let* started :=
        start_execution (stop_state_machine_arn d)
          (dumps (VDict [("cluster", VStr (cluster_name d));
                         ("taskArn", task_arn)])) in
      let* execution_arn := lift (getitem started "executionArn") in
      ret (response 200 (VDict [("message", VStr "Server stopping");
                                ("executionArn", execution_arn)]))
  else if eq_str action "status" then
    let* tasks := list_tasks (cluster_name d) "RUNNING" in
    let* task_arns := lift (get tasks "taskArns" VNone) in
    if negb (truthy task_arns) then
      ret (response 200 (VDict [("status", VStr "stopped")]))
    else
      let* task_count :=
        lift (let? task_arns := getitem tasks "taskArns" in len task_arns) in
      ret (response 200 (VDict [("status", VStr "running");
                                ("taskCount", VInt task_count)]))
  else
    ret (response 400
           (VDict [("error",
                    VStr "Invalid action. Use /start, /stop, or /status")])).

Definition api_handler_lambda (d : deployment) : lambda :=
  {| handler := api_handler d; environment := ∅; timeout := 30 |}.

End Handlers.
Import Handlers.

(* ===================================================================== *)
(** ** Step Functions: states, definitions and their execution            *)
(* ===================================================================== *)

Module Sfn.

(** A reference path [$.a.b] is the list of its field names; [$] is the
    empty list. *)
Definition path : Type := list string.

(** The states the stack declares. A [LambdaInvoke] sends the state input
    to the function as its event. *)
Inductive state : Type :=
| LambdaInvoke (id : string) (lambda_function : lambda)
    (result_path output_path : path)
| Wait (id : string) (seconds : Z)
| Succeed (id : string).

Definition state_id (s : state) : string :=
  match s with
  | LambdaInvoke id _ _ _ => id
  | Wait id _ => id
  | Succeed id => id
  end.

(** [a.next(b)]: a chain is the list of its states in order; each state
    has the one successor the chain gives it. *)
Definition chain : Type := list state.
Definition start (s : state) : chain := [s].
Definition next (c : chain) (s : state) : chain := (c ++ [s])%list.

Record state_machine : Type := {
  definition : chain;
  sm_timeout : Z
}.

(** ResultPath: where the result of the task goes in the state input. *)
Fixpoint set_path (p : path) (input result : value) : option value :=
  match p with
  | [] => Some result
  | k :: p' =>
      match input with
      | VDict d =>
          let sub := match assoc k d with Some v => v | None => VDict [] end in
          match set_path p' sub result with
          | Some v => Some (VDict (assoc_set k v d))
          | None => None
          end
      | _ => None
      end
  end.

(** OutputPath: the part of that which becomes the state output. *)
Fixpoint get_path (p : path) (v : value) : option value :=
  match p with
  | [] => Some v
  | k :: p' =>
      match v with
      | VDict d =>
          match assoc k d with
          | Some v' => get_path p' v'
          | None => None
          end
      | _ => None
      end
  end.

(** What the Lambda integration hands back for a function that returned
    [payload]; the SDK metadata beside it, which no state reads, is left
    out. *)
Definition invoke_result (payload : value) : value :=
  VDict [("ExecutedVersion", VStr "$LATEST");
         ("Payload", payload);
         ("StatusCode", VInt 200)].

Inductive failure : Type :=
| TaskFailed (e : exn)
| ResultPathMatchFailure
| OutputPathMatchFailure
| StatesTimeout.

Inductive status : Type :=
| Succeeded (output : value)
| Failed (at_state : string) (cause : failure).

(** One execution: the states run in the order of the chain, the output
    of each the input of the next. A state is entered only before the
    deadline of the execution. A function that raises, or that the platform
    ends at its timeout, fails its state: no state declares a catcher, so
    the execution fails there and nothing after it runs. The result is the
    final status, the identifiers of the states entered, and the world. *)
Fixpoint run (states : chain) (deadline : Z) (input : value) (w : World)
  : status * list string * World :=
  match states with
  | [] => (Succeeded input, [], w)
  | s :: rest =>
      if Z.leb deadline (clock w) then (Failed (state_id s) StatesTimeout, [], w)
      else
        match s with
        | Succeed id => (Succeeded input, [id], w)
        | Wait id seconds =>
            let '(st, tr, w') := run rest deadline input (advance seconds w) in
            (st, id :: tr, w')
        | LambdaInvoke id f result_path output_path =>
            match invoke f input w with
            | (Raise e, w1) => (Failed id (TaskFailed e), [id], w1)
            | (Ok payload, w1) =>
                match set_path result_path input (invoke_result payload) with
                | None => (Failed id ResultPathMatchFailure, [id], w1)
                | Some merged =>
                    match get_path output_path merged with
                    | None => (Failed id OutputPathMatchFailure, [id], w1)
                    | Some output =>
                        let '(st, tr, w') := run rest deadline output w1 in
                        (st, id :: tr, w')
                    end
                end
            end
        end
  end.

Definition execute (sm : state_machine) (input : value) (w : World)
  : status * list string * World :=
  run (definition sm) (clock w + sm_timeout sm) input w.

(** *** The start sequence *)

Definition start_task_step (start_task_lambda : lambda) : state :=
  LambdaInvoke "StartTask" start_task_lambda ["taskInfo"] ["taskInfo"; "Payload"].

Definition wait_for_task : state := Wait "WaitForTask" 30.

Definition get_ip_step (get_ip_lambda : lambda) : state :=
  LambdaInvoke "GetIP" get_ip_lambda ["ipInfo"] ["ipInfo"; "Payload"].

Definition update_dns_step (update_dns_lambda : lambda) : state :=
  LambdaInvoke "UpdateDNS" update_dns_lambda ["dnsInfo"] [].

Definition server_ready : state := Succeed "ServerReady".

Definition start_definition
    (start_task_lambda get_ip_lambda update_dns_lambda : lambda) : chain :=
  next (next (next (next (start (start_task_step start_task_lambda))
                      wait_for_task)
                (get_ip_step get_ip_lambda))
          (update_dns_step update_dns_lambda))
    server_ready.

Definition start_state_machine (d : deployment) : state_machine :=
  {| definition :=
       start_definition (start_task_lambda d) get_ip_lambda (update_dns_lambda d);
     sm_timeout := 600 |}.

(** *** The stop sequence *)

Definition backup_step (backup_lambda : lambda) : state :=
  LambdaInvoke "BackupWorld" backup_lambda ["backupInfo"] [].

Definition stop_task_step (stop_task_lambda : lambda) : state :=
  LambdaInvoke "StopTask" stop_task_lambda ["stopInfo"] [].

Definition server_stopped : state := Succeed "ServerStopped".

Definition stop_definition (backup_lambda stop_task_lambda : lambda) : chain :=
  next (next (start (backup_step backup_lambda))
          (stop_task_step stop_task_lambda))
    server_stopped.

Definition stop_state_machine (d : deployment) : state_machine :=
  {| definition := stop_definition (backup_lambda d) (stop_task_lambda d);
     sm_timeout := 600 |}.

End Sfn.
Import Sfn.

(* ===================================================================== *)
(** ** The head of the stack constructor: sizing                          *)
(* ===================================================================== *)

Module Stack.

Definition server_configs : list (string * value) :=
  [("small", VDict [("cpu", VInt 2048); ("memory", VInt 4096);
                    ("description", VStr "1-5 players")]);
   ("medium", VDict [("cpu", VInt 2048); ("memory", VInt 8192);
                     ("description", VStr "5-10 players")]);
   ("large", VDict [("cpu", VInt 4096); ("memory", VInt 16384);
                    ("description", VStr "10-20 players")])].

(** [table[key]] for a dict with string keys and any key object: an
    unhashable key is a [TypeError], any other key not in the table a
    [KeyError]. *)
Definition lookup_key (table : list (string * value)) (key : value)
  : result value :=
  if negb (hashable key) then Raise (TypeError "unhashable type")
  else
    match key with
    | VStr k =>
        match assoc k table with
        | Some v => Ok v
        | None => Raise (KeyError key)
        end
    | _ => Raise (KeyError key)
    end.

(** The sizing the constructor settles on before it declares anything.
    [context] is what [try_get_context] answers for the key [minecraft]. *)
Definition configure (context : value) : result (value * value) :=
  let config := py_or context (VDict []) in
  let? server_size := get config "server_size" (VStr "small") in
  let? enable_route53 := get config "enable_route53" (VBool false) in
  let? hosted_zone_id := get config "hosted_zone_id" (VStr EmptyString) in
  let? domain_name := get config "domain_name" (VStr EmptyString) in
  let? server_config := lookup_key server_configs server_size in
  Ok (server_size, server_config).

(** The identifiers of the constructs the constructor declares after the
    sizing, in the order of the source. *)
Definition resources : list string :=
  ["MinecraftVPC"; "MinecraftBackups"; "MinecraftCluster";
   "TaskExecutionRole"; "TaskRole"; "MinecraftTask"; "MinecraftContainer";
   "MinecraftSG"; "MinecraftService"; "StartTaskFunction"; "GetIPFunction";
   "BackupFunction"; "StopTaskFunction"; "UpdateDNSFunction"; "StartTask";
   "WaitForTask"; "GetIP"; "UpdateDNS"; "ServerReady";
   "StartServerStateMachine"; "BackupWorld"; "StopTask"; "ServerStopped";
   "StopServerStateMachine"; "ApiHandler"; "MinecraftApi"; "BackupRule";
   "ApiEndpoint"; "StartCommand"; "StopCommand"; "StatusCommand";
   "BackupBucket"; "ServerSize"].

(** The constructor: the sizing of the task definition it declares, or the
    error it raises, and the constructs declared by then. *)
Definition init (context : value) : result (value * value) * list string :=
  match configure context with
  | Raise e => (Raise e, [])
  | Ok sizing => (Ok sizing, resources)
  end.

End Stack.

(* ===================================================================== *)
(** ** Runs of the scale controller, readings of a backup key, samples    *)
(* ===================================================================== *)

Module Runs.

(** The two operations of the scale controller. *)
Inductive scale_op : Type := Start | Stop.

Definition scale_lambda (d : deployment) (op : scale_op) : lambda :=
  match op with
  | Start => start_task_lambda d
  | Stop => stop_task_lambda d
  end.

Definition target (op : scale_op) : Z :=
  match op with
  | Start => 1
  | Stop => 0
  end.

(** The desired count of the service of the deployment. *)
Definition desired (d : deployment) (w : World) : option Z :=
  ecs_services w !! (cluster_name d, service_name d).

(** A sequence of operations, each with the event it is invoked with: what
    each one returned and the world it left, in order. *)
Fixpoint run_ops (d : deployment) (ops : list (scale_op * value)) (w : World)
  : list (result value * World) :=
  match ops with
  | [] => []
  | (op, event) :: rest =>
      let r := invoke (scale_lambda d op) event w in
      r :: run_ops d rest (snd r)
  end.

(** The world once the sequence is over. *)
Definition settle (d : deployment) (ops : list (scale_op * value)) (w : World)
  : World :=
  List.last (map snd (run_ops d ops w)) w.

(** The desired count is 0 or 1. *)
Definition binary (o : option Z) : Prop := o = Some 0 \/ o = Some 1.

(** The workflow executions started so far, as the log has them. *)
Definition is_start_execution (c : api_call) : bool :=
  match c with
  | StartExecution _ _ => true
  | _ => false
  end.

Definition executions (w : World) : list api_call :=
  List.filter is_start_execution (calls w).

(** The three actions of the control API. *)
Definition known_action (action : value) : bool :=
  eq_str action "start" || eq_str action "stop" || eq_str action "status".

(** The text of a JSON string that needs no escape: its characters between
    two double quotes (code 34). *)
Definition in_quotes (s : string) : string :=
  String "034"%char (s ++ String "034"%char EmptyString).

(** The characters that need no escape in JSON text: printable ASCII other
    than the double quote and the backslash. Names and ARNs are made of
    such characters. *)
Definition plain_char (c : ascii) : bool :=
  let n := nat_of_ascii c in
  (Nat.leb 32 n && Nat.leb n 126 && negb (Nat.eqb n 34) &&
   negb (Nat.eqb n 92))%bool.

Definition plain (s : string) : bool :=
  forallb plain_char (list_ascii_of_string s).

(** The decimal numeral of a count. *)
Definition decimal (n : nat) : string :=
  NilZero.string_of_int (Z.to_int (Z.of_nat n)).

(** The input the API hands the stop state machine for a task: the JSON
    text of an object with the members cluster and taskArn. *)
Definition stop_input (cluster task_id : string) : string :=
  "{" ++ in_quotes "cluster" ++ ": " ++ in_quotes cluster ++ ", " ++
  in_quotes "taskArn" ++ ": " ++ in_quotes task_id ++ "}".

(** The calls a wait of [n] attempts leaves in the log. *)
Fixpoint polls (n : nat) (cluster : value) (tasks : list value) (delay : Z)
  : list api_call :=
  match n with
  | O => []
  | S O => [DescribeTasks cluster tasks]
  | S n' =>
      DescribeTasks cluster tasks :: Sleep delay :: polls n' cluster tasks delay
  end.

(** Reading a backup key back: the fixed prefix and suffix are removed and
    the rest read as an ISO-8601 timestamp. *)
Definition key_timestamp (key : string) : option string :=
  s ← strip_prefix "backups/world-" key; strip_suffix ".tar.gz" s.

Definition parse_backup_key (key : string) : option datetime :=
  s ← key_timestamp key; fromisoformat s.

End Runs.
Import Runs.

Module Samples.

Definition sample_deployment : deployment :=
  {| cluster_name := "MinecraftCluster";
     service_name := "MinecraftService";
     bucket_name := "minecraft-backups";
     start_state_machine_arn := "arn:aws:states:::stateMachine:Start";
     stop_state_machine_arn := "arn:aws:states:::stateMachine:Stop";
     enable_route53 := VBool false;
     hosted_zone_id := EmptyString;
     domain_name := EmptyString |}.

Definition sample_time : datetime :=
  {| year := 2024; month := 3; day := 9; hour := 7; minute := 5;
     second := 0; microsecond := 1234 |}.

(** A world with the service deployed at the desired count of the source,
    whose cluster lists [task_arns], describes every task with [task] and
    every network interface with [interface]. *)
Definition sample_world (task_arns : list value) (task interface : value)
  : World :=
  {| clock := 0;
     wall_clock := fun _ => sample_time;
     ecs_services := {[ ("MinecraftCluster", "MinecraftService") := 1 ]};
     ecs_list_tasks := fun _ _ _ => Ok (VDict [("taskArns", VList task_arns)]);
     ecs_describe_tasks :=
       fun _ _ _ => Ok (VDict [("tasks", VList [task]); ("failures", VList [])]);
     ec2_describe_network_interfaces :=
       fun _ _ => Ok (VDict [("NetworkInterfaces", VList [interface])]);
     sfn_execution_arn := fun _ => "arn:aws:states:::execution:1";
     route53_change_id := fun _ => "/change/C1";
     calls := [] |}.

Definition task_with (status : string) (details : list value) : value :=
  VDict [("taskArn", VStr "arn:aws:ecs:::task/1");
         ("lastStatus", VStr status);
         ("attachments",
          VList [VDict [("type", VStr "ElasticNetworkInterface");
                        ("details", VList details)]])].

Definition eni_detail : value :=
  VDict [("name", VStr "networkInterfaceId"); ("value", VStr "eni-1")].

Definition api_event (action : string) : value :=
  VDict [("pathParameters", VDict [("action", VStr action)])].

Definition task_event : value :=
  VDict [("cluster", VStr "MinecraftCluster");
         ("taskArn", VStr "arn:aws:ecs:::task/1")].

Definition public_interface : value :=
  VDict [("NetworkInterfaceId", VStr "eni-1");
         ("Association", VDict [("PublicIp", VStr "203.0.113.7")])].


(** A JSON string literal: the text between double quotes. *)
Definition quoted (s : string) : string :=
  String quote (s ++ String quote EmptyString).

(** A snapshot function that does not return in its time. *)
Definition stalled_backup : lambda :=
  {| handler := fun _ _ => raise (Timeout "BackupFunction");
     environment := ∅;
     timeout := 300 |}.

End Samples.
Import Samples.


(* ===================================================================== *)
(** ** The application: [app.py]                                          *)
(* ===================================================================== *)

Module App.

(** [app.node.try_get_context(k)]: the value of the key, or None. *)
Definition try_get_context (context : gmap string value) (k : string) : value :=
  match context !! k with
  | Some v => v
  | None => VNone
  end.

(** [os.getenv(k)]: the value of the variable, or None. *)
Definition getenv (environ : gmap string string) (k : string) : value :=
  match environ !! k with
  | Some v => VStr v
  | None => VNone
  end.

(** *** [str] and [repr], for the replacement field of an f-string *)

Definition apostrophe : ascii := "039"%char.

Definition contains (c : ascii) (s : string) : bool :=
  existsb (Ascii.eqb c) (list_ascii_of_string s).

(** A string is written between apostrophes, unless it holds apostrophes
    and no double quote. *)
Definition repr_quote (s : string) : ascii :=
  if (contains apostrophe s && negb (contains quote s))%bool
  then quote else apostrophe.

Definition hex2 (n : nat) : string :=
  String (hex_digit (Nat.div n 16))
    (String (hex_digit (Nat.modulo n 16)) EmptyString).

(** Code points below 256: the controls, the no-break space and the soft
    hyphen are not printable. *)
Definition repr_char (q c : ascii) : string :=
  let n := nat_of_ascii c in
  if (Ascii.eqb c q || Ascii.eqb c backslash)%bool
  then String backslash (String c EmptyString)
  else if Nat.eqb n 9 then String backslash "t"
  else if Nat.eqb n 10 then String backslash "n"
  else if Nat.eqb n 13 then String backslash "r"
  else if (Nat.ltb n 32 || Nat.eqb n 127)%bool
  then String backslash (String "x" (hex2 n))
  else if Nat.ltb n 127 then String c EmptyString
  else if (Nat.leb n 160 || Nat.eqb n 173)%bool
  then String backslash (String "x" (hex2 n))
  else String c EmptyString.

Definition repr_str (s : string) : string :=
  let q := repr_quote s in
  String q
    ((fix chars (s : string) : string :=
        match s with
        | EmptyString => String q EmptyString
        | String c s' => repr_char q c ++ chars s'
        end) s).

Fixpoint repr (v : value) : string :=
  match v with
  | VNone => "None"
  | VBool true => "True"
  | VBool false => "False"
  | VInt n => dumps_int n
  | VStr s => repr_str s
  | VList l =>
      "[" ++
      (fix items (l : list value) : string :=
         match l with
         | [] => EmptyString
         | [x] => repr x
         | x :: l' => repr x ++ ", " ++ items l'
         end) l ++ "]"
  | VDict d =>
      "{" ++
      (fix items (d : list (string * value)) : string :=
         match d with
         | [] => EmptyString
         | [(k, x)] => repr_str k ++ ": " ++ repr x
         | (k, x) :: d' => repr_str k ++ ": " ++ repr x ++ ", " ++ items d'
         end) d ++ "}"
  end.

(** [str(v)], which is what [{v}] writes in an f-string: a string as it
    is, anything else as [repr] has it. *)
Definition str (v : value) : string :=
  match v with
  | VStr s => s
  | _ => repr v
  end.

(** *** The deployment target and the name of the stack *)

Definition account (context : gmap string value) (environ : gmap string string)
  : value :=
  py_or (py_or (try_get_context context "account")
           (getenv environ "CDK_DEPLOY_ACCOUNT"))
    (getenv environ "CDK_DEFAULT_ACCOUNT").

Definition region (context : gmap string value) (environ : gmap string string)
  : value :=
  py_or (py_or (py_or (try_get_context context "region")
                  (getenv environ "CDK_DEPLOY_REGION"))
           (getenv environ "CDK_DEFAULT_REGION"))
    (VStr "us-east-1").

Definition prefix (context : gmap string value) (environ : gmap string string)
  : value :=
  py_or (try_get_context context "bucket_name_prefix")
    (getenv environ "BUCKET_NAME_PREFIX").

(** The construct id the stack is created under. *)
Definition stack_id (context : gmap string value)
    (environ : gmap string string) : string :=
  str (prefix context environ) ++ "MinecraftServer".

(** The application: the stack id, the account and the region of its
    environment, and what the constructor of the stack does with the
    context. *)
Definition main (context : gmap string value) (environ : gmap string string)
  : string * value * value * (result (value * value) * list string) :=
  (stack_id context environ,
   account context environ,
   region context environ,
   Stack.init (try_get_context context "minecraft")).

End App.

(* ===================================================================== *)
(** ** What the further properties speak of                               *)
(* ===================================================================== *)

Module Observations.

(** The record set the handler writes for an address. *)
Definition upsert_batch (name : string) (public_ip : value) : value :=
  VDict [("Changes",
          VList [VDict [("Action", VStr "UPSERT");
                        ("ResourceRecordSet",
                         VDict [("Name", VStr name);
                                ("Type", VStr "A");
                                ("TTL", VInt 60);
                                ("ResourceRecords",
                                 VList [VDict [("Value", public_ip)]])])]])].

(** A detail of another name than the one the resolver looks for. *)
Definition other_detail (detail : value) : Prop :=
  exists name,
    getitem detail "name" = Ok name /\
    eq_str name "networkInterfaceId" = false.

(** A detail that names the network interface [eni]. *)
Definition interface_detail (detail eni : value) : Prop :=
  exists name,
    getitem detail "name" = Ok name /\
    eq_str name "networkInterfaceId" = true /\
    getitem detail "value" = Ok eni.

(** The details the outer loop finds in an attachment. *)
Definition attachment_details (attachment : value) (details : list value)
  : Prop :=
  (let? ds := get attachment "details" (VList []) in iter ds) = Ok details.

(** A state that is not a terminal one. *)
Definition goes_on (s : state) : Prop :=
  match s with
  | Succeed _ => False
  | _ => True
  end.

(** The answer of the service at the attempt [i] of a wait that starts in
    [w]: the attempts are [delay] apart. *)
Definition answer_at (cluster : value) (tasks : list value) (delay : Z)
    (w : World) (i : nat) : result value :=
  ecs_describe_tasks w (clock w + delay * Z.of_nat i) cluster tasks.

(** The call a scale operation makes. *)
Definition scale_call (d : deployment) (o : scale_op * value) : api_call :=
  UpdateService (cluster_name d) (service_name d) (target (fst o)).

(** A deployment with Route53 on. *)
Definition dns_deployment : deployment :=
  {| cluster_name := "MinecraftCluster";
     service_name := "MinecraftService";
     bucket_name := "minecraft-backups";
     start_state_machine_arn := "arn:aws:states:::stateMachine:Start";
     stop_state_machine_arn := "arn:aws:states:::stateMachine:Stop";
     enable_route53 := VBool true;
     hosted_zone_id := "Z1";
     domain_name := "mc.example.org" |}.

(** What the address resolver returns for an address. *)
Definition resolved (public_ip : string) : value :=
  VDict [("statusCode", VInt 200);
         ("publicIp", VStr public_ip);
         ("taskArn", VStr "arn:aws:ecs:::task/1")].

(** A world whose task is pending for the first 12 seconds and running
    from then on. *)
Definition booting_world : World :=
  {| clock := 0;
     wall_clock := fun _ => sample_time;
     ecs_services := {[ ("MinecraftCluster", "MinecraftService") := 1 ]};
     ecs_list_tasks := fun _ _ _ => Ok (VDict [("taskArns", VList [])]);
     ecs_describe_tasks :=
       fun t _ _ =>
         Ok (VDict [("tasks",
                     VList [task_with (if Z.ltb t 12 then "PENDING"
                                       else "RUNNING") [eni_detail]]);
                    ("failures", VList [])]);
     ec2_describe_network_interfaces :=
       fun _ _ => Ok (VDict [("NetworkInterfaces", VList [public_interface])]);
     sfn_execution_arn := fun _ => "arn:aws:states:::execution:1";
     route53_change_id := fun _ => "/change/C1";
     calls := [] |}.

(** A detail of another name, and an attachment made of details. *)
Definition subnet_detail : value :=
  VDict [("name", VStr "subnetId"); ("value", VStr "subnet-1")].

Definition attachment_of (details : list value) : value :=
  VDict [("type", VStr "ElasticNetworkInterface");
         ("details", VList details)].

Definition later_eni_detail : value :=
  VDict [("name", VStr "networkInterfaceId"); ("value", VStr "eni-2")].

(** One microsecond after the sample time. *)
Definition next_time : datetime :=
  {| year := 2024; month := 3; day := 9; hour := 7; minute := 5;
     second := 0; microsecond := 1235 |}.

End Observations.
Import Observations.

(* ===================================================================== *)
(** ** Properties                                                         *)
(* ===================================================================== *)

(** *** The scale controller *)

Section ScaleController.

Variable d : deployment.

Lemma scale_environment (op : scale_op) :
  environ_getitem (environment (scale_lambda d op)) "CLUSTER_NAME"
    = Ok (cluster_name d) /\
  environ_getitem (environment (scale_lambda d op)) "SERVICE_NAME"
    = Ok (service_name d).
Proof.
  destruct op; split; unfold environ_getitem; simpl.
  all: try (rewrite lookup_insert_eq; reflexivity).
  all: rewrite lookup_insert_ne by discriminate;
    rewrite lookup_insert_eq; reflexivity.
Qed.

(** One operation on a deployed service: it returns its success payload,
    writes its target as the desired count, and logs the call. *)
Lemma scale_step (op : scale_op) (event : value) (w : World) (n : Z) :
  desired d w = Some n ->
  exists payload,
    invoke (scale_lambda d op) event w =
      (Ok payload,
       set_desired (cluster_name d, service_name d) (target op)
         (log (UpdateService (cluster_name d) (service_name d) (target op)) w))
    /\ getitem payload "statusCode" = Ok (VInt 200).
Proof.
  intros Hn.
  destruct (scale_environment op) as [Hc Hs].
  unfold desired in Hn.
  destruct op; simpl in Hc, Hs |- *;
    unfold invoke, start_task_handler, stop_task_handler, bind, lift; simpl;
    rewrite Hc, Hs; unfold update_service; rewrite Hn; simpl;
    eexists; split; reflexivity.
Qed.

Lemma desired_after_scale (op : scale_op) (w : World) (c : api_call) :
  desired d (set_desired (cluster_name d, service_name d) (target op) (log c w))
    = Some (target op).
Proof.
  unfold desired; simpl. apply lookup_insert_eq.
Qed.

(** Every operation of a run returns, and leaves the desired count at 0 or
    at 1. *)
Lemma run_ops_steps (ops : list (scale_op * value)) :
  forall (w : World) (n : Z),
    desired d w = Some n ->
    Forall (fun r : result value * World =>
              (exists payload, fst r = Ok payload) /\ binary (desired d (snd r)))
      (run_ops d ops w).
Proof.
  induction ops as [| [op event] rest IH]; intros w n Hn; simpl.
  - constructor.
  - destruct (scale_step op event w n Hn) as (payload & Hrun & _).
    rewrite Hrun; simpl. constructor.
    + split; [eexists; reflexivity |].
      simpl. rewrite desired_after_scale.
      destruct op; [right | left]; reflexivity.
    + eapply IH. apply desired_after_scale.
Qed.

Lemma last_cons {A : Type} (l : list A) :
  forall x default : A, List.last (x :: l) default = List.last l x.
Proof.
  induction l as [| y l IH]; intros x default.
  - reflexivity.
  - change (List.last (x :: y :: l) default) with (List.last (y :: l) default).
    rewrite (IH y default), (IH y x). reflexivity.
Qed.

Lemma settle_cons (op : scale_op) (event : value)
    (ops : list (scale_op * value)) (w : World) :
  settle d ((op, event) :: ops) w =
  settle d ops (snd (invoke (scale_lambda d op) event w)).
Proof.
  unfold settle. cbn [run_ops map]. apply last_cons.
Qed.

Lemma settle_snoc (ops : list (scale_op * value)) (op : scale_op)
    (event : value) :
  forall (w : World) (n : Z),
    desired d w = Some n ->
    desired d (settle d (ops ++ [(op, event)])%list w) = Some (target op).
Proof.
  induction ops as [| [op' event'] rest IH]; intros w n Hn.
  - change ([] ++ [(op, event)])%list with [(op, event)].
    rewrite settle_cons.
    destruct (scale_step op event w n Hn) as (payload & Hrun & _).
    rewrite Hrun. apply desired_after_scale.
  - change (((op', event') :: rest) ++ [(op, event)])%list
      with ((op', event') :: (rest ++ [(op, event)]))%list.
    rewrite settle_cons.
    destruct (scale_step op' event' w n Hn) as (payload & Hrun & _).
    rewrite Hrun. eapply IH. apply desired_after_scale.
Qed.

Lemma settle_app (ops1 ops2 : list (scale_op * value)) :
  forall w : World,
    settle d (ops1 ++ ops2)%list w = settle d ops2 (settle d ops1 w).
Proof.
  induction ops1 as [| [op event] rest IH]; intros w.
  - reflexivity.
  - change (((op, event) :: rest) ++ ops2)%list
      with ((op, event) :: (rest ++ ops2))%list.
    rewrite !settle_cons. apply IH.
Qed.

(** C1. From a service whose desired count is 0 or 1, every start/stop
    operation of a finite sequence returns without error and leaves the
    desired count at 0 or 1; once the sequence is over the count is 1 if
    the last operation was a start and 0 if it was a stop; and doing an
    operation a second time in a row leaves the services as the first
    left them. *)
Theorem scale_sequence_desired_count
    (ops : list (scale_op * value)) (w : World) (n : Z) :
  desired d w = Some n ->
  n = 0 \/ n = 1 ->
  Forall (fun r : result value * World =>
            (exists payload, fst r = Ok payload) /\ binary (desired d (snd r)))
    (run_ops d ops w) /\
  binary (desired d (settle d ops w)) /\
  (forall ops' op event,
      ops = (ops' ++ [(op, event)])%list ->
      desired d (settle d ops w) = Some (target op)) /\
  (forall op event event',
      ecs_services (settle d (ops ++ [(op, event); (op, event')])%list w) =
      ecs_services (settle d (ops ++ [(op, event)])%list w)).
Proof.
  intros Hn Hbin. split; [| split; [| split]].
  - eapply run_ops_steps; eassumption.
  - destruct ops as [| o ops'] using rev_ind.
    + unfold settle; simpl. rewrite Hn.
      destruct Hbin; subst; [left | right]; reflexivity.
    + destruct o as [op event].
      rewrite (settle_snoc ops' op event w n Hn).
      destruct op; [right | left]; reflexivity.
  - intros ops' op event ->. eapply settle_snoc; eassumption.
  - intros op event event'.
    change [(op, event); (op, event')] with ([(op, event)] ++ [(op, event')])%list.
    rewrite app_assoc, (settle_app (ops ++ [(op, event)])%list).
    pose proof (settle_snoc ops op event w n Hn) as Hd.
    set (w1 := settle d (ops ++ [(op, event)])%list w) in *.
    rewrite settle_cons.
    destruct (scale_step op event' w1 _ Hd) as (payload & Hrun & _).
    rewrite Hrun. unfold settle; simpl.
    apply insert_id. exact Hd.
Qed.

End ScaleController.

(** *** JSON text *)

Section JsonText.

Lemma append_cons (c : ascii) (s r : string) :
  String c s ++ r = String c (s ++ r).
Proof. reflexivity. Qed.

Lemma append_nil (r : string) : EmptyString ++ r = r.
Proof. reflexivity. Qed.

Lemma append_empty (s : string) : s ++ EmptyString = s.
Proof.
  induction s as [| c s IH]; [reflexivity |].
  rewrite append_cons, IH. reflexivity.
Qed.

Lemma append_assoc (a b c : string) : (a ++ b) ++ c = a ++ (b ++ c).
Proof.
  induction a as [| x a IH]; [reflexivity |].
  rewrite !append_cons, IH. reflexivity.
Qed.

Lemma escape_char_plain (c : ascii) :
  plain_char c = true -> escape_char c = String c EmptyString.
Proof.
  destruct c as [[] [] [] [] [] [] [] []]; intros H;
    try discriminate H; reflexivity.
Qed.

(** [json.dumps] writes a string of plain characters as it is. *)
Lemma escape_plain (s : string) : plain s = true -> escape s = s.
Proof.
  induction s as [| c s IH]; [reflexivity |].
  unfold plain; cbn [list_ascii_of_string forallb]. intros H.
  apply andb_prop in H as [Hc Hs].
  cbn [escape]. rewrite (escape_char_plain c Hc), append_cons, append_nil.
  rewrite IH by exact Hs. reflexivity.
Qed.

Lemma dumps_str_plain (s : string) :
  plain s = true -> dumps_str s = in_quotes s.
Proof.
  intros H. unfold dumps_str, in_quotes. rewrite escape_plain by exact H.
  reflexivity.
Qed.

(** The text of an object of two string members. *)
Lemma dumps_two_strings (k1 v1 k2 v2 : string) :
  plain k1 = true -> plain v1 = true ->
  plain k2 = true -> plain v2 = true ->
  dumps (VDict [(k1, VStr v1); (k2, VStr v2)]) =
  "{" ++ in_quotes k1 ++ ": " ++ in_quotes v1 ++ ", " ++
  in_quotes k2 ++ ": " ++ in_quotes v2 ++ "}".
Proof.
  intros H1 H2 H3 H4. cbn [dumps].
  rewrite !dumps_str_plain by assumption.
  repeat (rewrite append_assoc || rewrite append_cons || rewrite append_nil).
  reflexivity.
Qed.

(** The text of the body of a running server. *)
Lemma dumps_running (n : nat) :
  dumps (VDict [("status", VStr "running"); ("taskCount", VInt (Z.of_nat n))]) =
  "{" ++ in_quotes "status" ++ ": " ++ in_quotes "running" ++ ", " ++
  in_quotes "taskCount" ++ ": " ++ decimal n ++ "}".
Proof. reflexivity. Qed.

End JsonText.

(** *** The control API *)

Section ControlApi.

Variable d : deployment.

Lemma executions_log (c : api_call) (w : World) :
  is_start_execution c = false -> executions (log c w) = executions w.
Proof.
  intros Hc. unfold executions; simpl.
  rewrite List.filter_app; simpl. rewrite Hc. apply app_nil_r.
Qed.

(** An event without path parameters, or whose path parameters have no
    action, reads as the empty action. *)
Lemma get_action_missing (items : list (string * value)) :
  assoc "pathParameters" items = None \/
  (exists params, assoc "pathParameters" items = Some (VDict params) /\
                  assoc "action" params = None) ->
  get_action (VDict items) = Ok (VStr EmptyString).
Proof.
  intros [H | (params & H & Ha)]; unfold get_action; simpl; rewrite H; simpl.
  - reflexivity.
  - rewrite Ha. reflexivity.
Qed.

(** A response that has a list under [taskArns] is a dict that holds it. *)
Lemma task_arns_getitem (tasks : value) (task_arns : list value) :
  get tasks "taskArns" VNone = Ok (VList task_arns) ->
  getitem tasks "taskArns" = Ok (VList task_arns).
Proof.
  destruct tasks; simpl; try discriminate.
  destruct (assoc "taskArns" d0); [auto | discriminate].
Qed.

(** The branch the handler takes for an action that is none of the
    three. *)
Lemma api_invalid_action_run (environ : gmap string string)
    (event action : value) (w : World) :
  get_action event = Ok action ->
  known_action action = false ->
  api_handler d environ event w =
    (Ok (response 400
           (VDict [("error",
                    VStr "Invalid action. Use /start, /stop, or /status")])),
     w).
Proof.
  intros Ha Hk. unfold known_action in Hk.
  apply orb_false_elim in Hk as [Hk Hstatus].
  apply orb_false_elim in Hk as [Hstart Hstop].
  unfold api_handler, bind, lift. rewrite Ha, Hstart, Hstop, Hstatus.
  reflexivity.
Qed.

(** C8. An invocation whose action is none of start, stop and status (the
    empty action of an event that has none included) returns the dict of
    status code 400 whose body is the JSON text of an object with the one
    member error, Invalid action. Use /start, /stop, or /status; and it
    leaves the world as it was: no task lookup, no execution started. *)
Theorem api_invalid_action (environ : gmap string string) (event action : value)
    (w : World) :
  get_action event = Ok action ->
  known_action action = false ->
  api_handler d environ event w =
    (Ok (VDict [("statusCode", VInt 400);
                ("body",
                 VStr ("{" ++ in_quotes "error" ++ ": " ++
                       in_quotes "Invalid action. Use /start, /stop, or /status"
                       ++ "}"))]),
     w).
Proof.
  intros Ha Hk. rewrite (api_invalid_action_run environ event action w Ha Hk).
  reflexivity.
Qed.

(** The status branch of the handler. *)
Lemma api_status_run (environ : gmap string string) (event tasks : value)
    (task_arns : list value) (w : World) :
  get_action event = Ok (VStr "status") ->
  ecs_list_tasks w (clock w) (cluster_name d) "RUNNING" = Ok tasks ->
  get tasks "taskArns" VNone = Ok (VList task_arns) ->
  let r := api_handler d environ event w in
  fst r =
    Ok (response 200
          (match task_arns with
           | [] => VDict [("status", VStr "stopped")]
           | _ :: _ =>
               VDict [("status", VStr "running");
                      ("taskCount", VInt (Z.of_nat (length task_arns)))]
           end)) /\
  snd r = log (ListTasks (cluster_name d) "RUNNING") w /\
  executions (snd r) = executions w.
Proof.
  intros Ha Hl Hg r. subst r.
  unfold api_handler, bind, lift. rewrite Ha. simpl.
  unfold list_tasks. rewrite Hl, Hg.
  destruct task_arns as [| a l]; simpl.
  - split; [reflexivity | split; [reflexivity |]].
    apply executions_log. reflexivity.
  - rewrite (task_arns_getitem _ _ Hg). simpl.
    split; [reflexivity | split; [reflexivity |]].
    apply executions_log. reflexivity.
Qed.

(** C7. An invocation with the action status returns the dict of status
    code 200 whose body is, when the cluster lists no running task, the
    JSON text of an object with the one member status, stopped, and
    otherwise that of an object with the members status, running, and
    taskCount, the number of listed tasks in decimal; it makes the one
    lookup and starts no execution. *)
Theorem api_status (environ : gmap string string) (event tasks : value)
    (task_arns : list value) (w : World) :
  get_action event = Ok (VStr "status") ->
  ecs_list_tasks w (clock w) (cluster_name d) "RUNNING" = Ok tasks ->
  get tasks "taskArns" VNone = Ok (VList task_arns) ->
  let r := api_handler d environ event w in
  fst r =
    Ok (VDict [("statusCode", VInt 200);
               ("body",
                VStr (match task_arns with
                      | [] =>
                          "{" ++ in_quotes "status" ++ ": " ++
                          in_quotes "stopped" ++ "}"
                      | _ :: _ =>
                          "{" ++ in_quotes "status" ++ ": " ++
                          in_quotes "running" ++ ", " ++
                          in_quotes "taskCount" ++ ": " ++
                          decimal (length task_arns) ++ "}"
                      end))]) /\
  snd r = log (ListTasks (cluster_name d) "RUNNING") w /\
  executions (snd r) = executions w.
Proof.
  intros Ha Hl Hg r.
  destruct (api_status_run environ event tasks task_arns w Ha Hl Hg)
    as (Hfst & Hsnd & Hexec).
  split; [| split; assumption].
  subst r. rewrite Hfst. unfold response.
  destruct task_arns as [| a l]; [reflexivity |].
  rewrite dumps_running. reflexivity.
Qed.

(** The stop branch of the handler. *)
Lemma api_stop_run (environ : gmap string string) (event tasks : value)
    (task_arns : list value) (w : World) :
  get_action event = Ok (VStr "stop") ->
  ecs_list_tasks w (clock w) (cluster_name d) "RUNNING" = Ok tasks ->
  get tasks "taskArns" VNone = Ok (VList task_arns) ->
  let w1 := log (ListTasks (cluster_name d) "RUNNING") w in
  let r := api_handler d environ event w in
  match task_arns with
  | [] =>
      fst r = Ok (response 404 (VDict [("error", VStr "No running server found")]))
      /\ snd r = w1
      /\ executions (snd r) = executions w
  | task_arn :: _ =>
      fst r =
        Ok (response 200
              (VDict [("message", VStr "Server stopping");
                      ("executionArn",
                       VStr (sfn_execution_arn w (length (calls w1))))]))
      /\ snd r =
           log (StartExecution (stop_state_machine_arn d)
                  (dumps (VDict [("cluster", VStr (cluster_name d));
                                 ("taskArn", task_arn)]))) w1
      /\ executions (snd r) =
           (executions w ++
            [StartExecution (stop_state_machine_arn d)
               (dumps (VDict [("cluster", VStr (cluster_name d));
                              ("taskArn", task_arn)]))])%list
  end.
Proof.
  intros Ha Hl Hg w1 r. subst r w1.
  unfold api_handler, bind, lift. rewrite Ha. simpl.
  unfold list_tasks. rewrite Hl, Hg.
  destruct task_arns as [| a l]; simpl.
  - split; [reflexivity | split; [reflexivity |]].
    apply executions_log. reflexivity.
  - rewrite (task_arns_getitem _ _ Hg). simpl.
    split; [reflexivity | split; [reflexivity |]].
    unfold executions; simpl.
    rewrite !List.filter_app; simpl. rewrite app_nil_r. reflexivity.
Qed.

(** C2. An invocation with the action stop, when the cluster lists no
    running task, returns the dict of status code 404 whose body is the
    JSON text of an object with the one member error, No running server
    found, and starts no execution. When the cluster lists tasks, the
    first of them the string [task_id], the handler starts one execution
    of the stop state machine, whose input is the JSON text of an object
    with the members cluster, the name of the cluster, and taskArn,
    [task_id]; and it returns at once the dict of status code 200 whose
    body is the JSON text of an object with the members message, Server
    stopping, and executionArn, the identifier Step Functions gave the
    execution. The names and identifiers are of characters JSON does not
    escape. *)
Theorem api_stop (environ : gmap string string) (event tasks : value)
    (task_arns : list value) (w : World) :
  get_action event = Ok (VStr "stop") ->
  ecs_list_tasks w (clock w) (cluster_name d) "RUNNING" = Ok tasks ->
  get tasks "taskArns" VNone = Ok (VList task_arns) ->
  let w1 := log (ListTasks (cluster_name d) "RUNNING") w in
  let r := api_handler d environ event w in
  match task_arns with
  | [] =>
      fst r =
        Ok (VDict [("statusCode", VInt 404);
                   ("body",
                    VStr ("{" ++ in_quotes "error" ++ ": " ++
                          in_quotes "No running server found" ++ "}"))])
      /\ snd r = w1
      /\ executions (snd r) = executions w
  | task_arn :: _ =>
      forall task_id : string,
        task_arn = VStr task_id ->
        let execution_arn := sfn_execution_arn w (length (calls w1)) in
        plain (cluster_name d) = true ->
        plain task_id = true ->
        plain execution_arn = true ->
        fst r =
          Ok (VDict [("statusCode", VInt 200);
                     ("body",
                      VStr ("{" ++ in_quotes "message" ++ ": " ++
                            in_quotes "Server stopping" ++ ", " ++
                            in_quotes "executionArn" ++ ": " ++
                            in_quotes execution_arn ++ "}"))])
        /\ snd r =
             log (StartExecution (stop_state_machine_arn d)
                    (stop_input (cluster_name d) task_id)) w1
        /\ executions (snd r) =
             (executions w ++
              [StartExecution (stop_state_machine_arn d)
                 (stop_input (cluster_name d) task_id)])%list
  end.
Proof.
  intros Ha Hl Hg w1 r.
  pose proof (api_stop_run environ event tasks task_arns w Ha Hl Hg) as Hrun.
  cbv zeta in Hrun. fold w1 r in Hrun.
  destruct task_arns as [| task_arn rest].
  - destruct Hrun as (Hfst & Hsnd & Hexec).
    split; [| split; assumption]. rewrite Hfst. reflexivity.
  - intros task_id -> execution_arn Hcluster Htask Harn.
    destruct Hrun as (Hfst & Hsnd & Hexec).
    assert (Hinput :
      dumps (VDict [("cluster", VStr (cluster_name d));
                    ("taskArn", VStr task_id)]) =
      stop_input (cluster_name d) task_id).
    { apply dumps_two_strings; (reflexivity || assumption). }
    rewrite Hinput in Hsnd, Hexec.
    split; [| split; assumption].
    rewrite Hfst. unfold response.
    rewrite (dumps_two_strings "message" "Server stopping" "executionArn"
               (sfn_execution_arn w (length (calls w1))));
      (reflexivity || assumption).
Qed.

End ControlApi.

(** *** The address resolver *)

Section AddressResolver.

Variables (cluster : value) (tasks : list value) (delay max_attempts : Z).

(** With a round of fuel for each attempt left, and one at least, the
    loop of the waiter comes to an end. *)
Lemma wait_loop_enough (fuel : nat) :
  forall (num_attempts : Z) (w : World),
    (1 <= fuel)%nat ->
    (Z.to_nat (max_attempts - num_attempts) <= fuel)%nat ->
    exists r, wait_loop fuel cluster tasks delay max_attempts num_attempts w
              = Some r.
Proof.
  induction fuel as [| fuel IH]; intros num w H1 Hfuel; [lia |].
  cbn [wait_loop].
  destruct (describe_tasks cluster tasks w) as [[response | e] w1].
  2:{ destruct e; eauto. }
  destruct (tasks_running_state response); eauto.
  destruct (Z.leb max_attempts (num + 1)) eqn:E; eauto.
  apply Z.leb_gt in E. apply IH; lia.
Qed.

(** The wait of the handler never runs out of fuel. *)
Lemma wait_is_wait_loop (w : World) :
  wait_loop (Z.to_nat (Z.max 1 max_attempts)) cluster tasks delay
    max_attempts 0 w = Some (wait cluster tasks delay max_attempts w).
Proof.
  unfold wait.
  destruct (wait_loop_enough (Z.to_nat (Z.max 1 max_attempts)) 0 w)
    as [r ->]; [lia | lia | reflexivity].
Qed.

(** A task that never shows as running: the loop ends in an error after
    at most the attempts it had left, with the delay between them. *)
Lemma wait_loop_never_running (fuel : nat) :
  forall (num_attempts : Z) (w : World),
    (forall t response,
        ecs_describe_tasks w t cluster tasks = Ok response ->
        path_all "tasks" "lastStatus" "RUNNING" response = false) ->
    num_attempts < max_attempts ->
    (Z.to_nat (max_attempts - num_attempts) <= fuel)%nat ->
    exists (k : nat) (e : exn) (w' : World),
      wait_loop fuel cluster tasks delay max_attempts num_attempts w
        = Some (Raise e, w') /\
      (1 <= k)%nat /\ Z.of_nat k <= max_attempts - num_attempts /\
      calls w' = (calls w ++ polls k cluster tasks delay)%list /\
      clock w' = clock w + delay * (Z.of_nat k - 1).
Proof.
  induction fuel as [| fuel IH]; intros num w Hnever Hnum Hfuel; [lia |].
  cbn [wait_loop]. unfold describe_tasks.
  destruct (ecs_describe_tasks w (clock w) cluster tasks)
    as [response | e] eqn:Hd.
  2:{ exists 1%nat.
      destruct e; do 2 eexists; (split; [reflexivity |]); simpl;
        repeat split; lia. }
  unfold tasks_running_state. rewrite (Hnever _ _ Hd).
  destruct (path_any "tasks" "lastStatus" "STOPPED" response).
  { exists 1%nat. do 2 eexists. split; [reflexivity |].
    simpl. repeat split; lia. }
  destruct (path_any "failures" "reason" "MISSING" response).
  { exists 1%nat. do 2 eexists. split; [reflexivity |].
    simpl. repeat split; lia. }
  destruct (Z.leb max_attempts (num + 1)) eqn:E.
  { exists 1%nat. do 2 eexists. split; [reflexivity |].
    simpl. repeat split; lia. }
  apply Z.leb_gt in E.
  set (w2 := snd (sleep delay (log (DescribeTasks cluster tasks) w))).
  destruct (IH (num + 1) w2) as (k & e & w' & Hrun & Hk1 & Hk & Hcalls & Hclock).
  - intros t response' H. apply (Hnever t response'). exact H.
  - lia.
  - lia.
  - exists (S k), e, w'. split; [exact Hrun |].
    split; [lia |]. split; [lia |]. split.
    + rewrite Hcalls. subst w2; simpl.
      destruct k as [| k']; [lia |].
      rewrite <- !app_assoc. reflexivity.
    + rewrite Hclock. subst w2; simpl. lia.
Qed.

End AddressResolver.

Section AddressResolverHandler.

Variables (environ : gmap string string) (event cluster task_arn : value).
Hypothesis Hcluster : getitem event "cluster" = Ok cluster.
Hypothesis Htask : getitem event "taskArn" = Ok task_arn.

(** C5. For a task that never shows as running, the address resolver
    ends with an error after at least one and at most 20 calls of
    DescribeTasks, with a sleep of 6 seconds between one call and the next
    and nothing else: it does not wait without end. *)
Theorem resolver_poll_budget (w : World) :
  (forall t response,
      ecs_describe_tasks w t cluster [task_arn] = Ok response ->
      path_all "tasks" "lastStatus" "RUNNING" response = false) ->
  exists (k : nat) (e : exn) (w' : World),
    get_ip_handler environ event w = (Raise e, w') /\
    (1 <= k <= 20)%nat /\
    calls w' = (calls w ++ polls k cluster [task_arn] 6)%list /\
    clock w' = clock w + 6 * (Z.of_nat k - 1).
Proof.
  intros Hnever.
  destruct (wait_loop_never_running cluster [task_arn] 6 20 20 0 w Hnever)
    as (k & e & w' & Hrun & Hk1 & Hk & Hcalls & Hclock); [lia | lia |].
  pose proof (wait_is_wait_loop cluster [task_arn] 6 20 w) as Hw.
  change (Z.to_nat (Z.max 1 20)) with 20%nat in Hw.
  rewrite Hrun in Hw. injection Hw as Hw.
  exists k, e, w'.
  unfold get_ip_handler, bind, lift. rewrite Hcluster, Htask, <- Hw.
  split; [reflexivity |]. split; [lia |]. split; assumption.
Qed.


End AddressResolverHandler.

(** *** The snapshot trigger *)

Section SnapshotTrigger.

Lemma digit_value (n : Z) :
  0 <= n < 10 -> Z.of_nat (nat_of_ascii (digit n)) = 48 + n.
Proof.
  intros Hn. unfold digit.
  rewrite nat_ascii_embedding by lia. lia.
Qed.

(** Reading [w] digits back gives the number they were printed from. *)
Lemma read_pad (w : nat) :
  forall (n acc : Z) (rest : string),
    0 <= n < 10 ^ Z.of_nat w ->
    read w acc (pad w n ++ rest) = Some (acc * 10 ^ Z.of_nat w + n, rest).
Proof.
  induction w as [| w IH]; intros n acc rest Hn.
  - cbn [pad read]. rewrite append_nil. change (10 ^ Z.of_nat 0) with 1 in *.
    f_equal. f_equal. lia.
  - rewrite Nat2Z.inj_succ, Z.pow_succ_r in * by lia.
    assert (Hpos : 0 < 10 ^ Z.of_nat w) by (apply Z.pow_pos_nonneg; lia).
    assert (Hq : 0 <= n / 10 ^ Z.of_nat w < 10).
    { split; [apply Z.div_pos; lia |].
      apply Z.div_lt_upper_bound; lia. }
    pose proof (Z.mod_pos_bound n _ Hpos) as Hr.
    cbn [pad]. rewrite append_cons. cbn [read]. cbv zeta.
    rewrite (digit_value _ Hq).
    replace (Z.leb 48 (48 + n / 10 ^ Z.of_nat w)) with true
      by (symmetry; apply Z.leb_le; lia).
    replace (Z.leb (48 + n / 10 ^ Z.of_nat w) 57) with true
      by (symmetry; apply Z.leb_le; lia).
    cbn [andb]. rewrite IH by exact Hr.
    f_equal. f_equal.
    pose proof (Z.div_mod n (10 ^ Z.of_nat w)) as Hdm. lia.
Qed.

Lemma read_pad_0 (w : nat) (n : Z) (rest : string) :
  0 <= n < 10 ^ Z.of_nat w ->
  read w 0 (pad w n ++ rest) = Some (n, rest).
Proof.
  intros Hn. rewrite read_pad by exact Hn. reflexivity.
Qed.

Ltac next_field :=
  rewrite ?append_cons, ?append_nil;
  cbn [mbind option_bind expect Ascii.eqb Bool.eqb].

(** The rendering of a timestamp reads back as the timestamp. *)
Lemma fromisoformat_isoformat (t : datetime) :
  valid t -> fromisoformat (isoformat t) = Some t.
Proof.
  destruct t as [y mo dd h mi se us].
  unfold valid; cbn [year month day hour minute second microsecond].
  intros (Hy & Hmo & Hd & Hh & Hmi & Hse & Hus).
  unfold fromisoformat, isoformat;
    cbn [year month day hour minute second microsecond].
  rewrite read_pad_0 by (change (10 ^ Z.of_nat 4) with 10000; lia).
  next_field.
  rewrite read_pad_0 by (change (10 ^ Z.of_nat 2) with 100; lia).
  next_field.
  rewrite read_pad_0 by (change (10 ^ Z.of_nat 2) with 100; lia).
  next_field.
  rewrite read_pad_0 by (change (10 ^ Z.of_nat 2) with 100; lia).
  next_field.
  rewrite read_pad_0 by (change (10 ^ Z.of_nat 2) with 100; lia).
  next_field.
  rewrite read_pad_0 by (change (10 ^ Z.of_nat 2) with 100; lia).
  cbn [mbind option_bind].
  destruct (Z.eqb us 0) eqn:E.
  - apply Z.eqb_eq in E. subst us. reflexivity.
  - next_field.
    rewrite <- (append_empty (pad 6 us)).
    rewrite read_pad_0 by (change (10 ^ Z.of_nat 6) with 1000000; lia).
    cbn [mbind option_bind]. rewrite E. reflexivity.
Qed.

Lemma strip_prefix_append (p s : string) : strip_prefix p (p ++ s) = Some s.
Proof.
  induction p as [| c p IH]; [reflexivity |].
  rewrite append_cons. cbn [strip_prefix].
  rewrite Ascii.eqb_refl. exact IH.
Qed.

Lemma length_append (s q : string) :
  String.length (s ++ q) = (String.length s + String.length q)%nat.
Proof.
  induction s as [| c s IH]; [reflexivity |].
  rewrite append_cons. cbn [String.length]. rewrite IH. reflexivity.
Qed.

Lemma substring_whole (q : string) : substring 0 (String.length q) q = q.
Proof. induction q as [| c q IH]; simpl; [| rewrite IH]; reflexivity. Qed.

Lemma substring_after (s q : string) :
  substring (String.length s) (String.length q) (s ++ q) = q.
Proof.
  induction s as [| c s IH]; [apply substring_whole |].
  rewrite append_cons. exact IH.
Qed.

Lemma substring_before (s q : string) :
  substring 0 (String.length s) (s ++ q) = s.
Proof.
  induction s as [| c s IH].
  - rewrite append_nil. destruct q; reflexivity.
  - rewrite append_cons. cbn [String.length substring]. rewrite IH. reflexivity.
Qed.

Lemma strip_suffix_append (q s : string) : strip_suffix q (s ++ q) = Some s.
Proof.
  unfold strip_suffix. rewrite length_append.
  replace (String.length s + String.length q - String.length q)%nat
    with (String.length s) by lia.
  rewrite substring_after, String.eqb_refl, substring_before. reflexivity.
Qed.

(** C9. For every timestamp the clock can give, the snapshot trigger
    returns the key made of the prefix backups/world-, the ISO-8601
    rendering of the timestamp and the suffix .tar.gz; removing that prefix
    and that suffix from the key gives the rendering back, and reading the
    rendering gives the timestamp it was made from. *)
Theorem backup_key_round_trip (d : deployment) (environ : gmap string string)
    (event cluster task_arn : value) (w : World) :
  getitem event "cluster" = Ok cluster ->
  getitem event "taskArn" = Ok task_arn ->
  valid (wall_clock w (clock w)) ->
  let t := wall_clock w (clock w) in
  let key := "backups/world-" ++ isoformat t ++ ".tar.gz" in
  backup_handler d environ event w =
    (Ok (VDict [("statusCode", VInt 200);
                ("backupKey", VStr key);
                ("timestamp", VStr (isoformat t))]), w) /\
  key_timestamp key = Some (isoformat t) /\
  parse_backup_key key = Some t.
Proof.
  intros Hc Ht Hvalid t key.
  assert (Hkey : key_timestamp key = Some (isoformat t)).
  { unfold key_timestamp, key.
    rewrite strip_prefix_append. cbn [mbind option_bind].
    apply strip_suffix_append. }
  split; [| split].
  - unfold backup_handler, bind, lift, utcnow. rewrite Hc, Ht. reflexivity.
  - exact Hkey.
  - unfold parse_backup_key. rewrite Hkey. cbn [mbind option_bind].
    apply fromisoformat_isoformat. exact Hvalid.
Qed.

End SnapshotTrigger.

(** *** The lifecycle orchestrator *)

Section Orchestrator.

Variable d : deployment.

Lemma deadline_ahead (w : World) : Z.leb (clock w + 600) (clock w) = false.
Proof. apply Z.leb_gt. lia. Qed.

(** C3. In an execution of the stop sequence, whatever the snapshot
    function does, the states entered are a prefix of BackupWorld, StopTask,
    ServerStopped, BackupWorld first; StopTask is entered only after the
    snapshot function returned; and when the snapshot function raises or
    is ended at its timeout the execution fails at BackupWorld, StopTask is
    not entered, and the world is as the snapshot function left it. *)
Theorem stop_snapshot_before_scale_down (backup : lambda) (input : value)
    (w w' : World) (st : status) (tr : list string) :
  execute {| definition := stop_definition backup (stop_task_lambda d);
             sm_timeout := 600 |} input w = (st, tr, w') ->
  (tr = ["BackupWorld"] \/ tr = ["BackupWorld"; "StopTask"] \/
   tr = ["BackupWorld"; "StopTask"; "ServerStopped"]) /\
  (In "StopTask" tr ->
   exists payload w1, invoke backup input w = (Ok payload, w1)) /\
  (forall e w1,
      invoke backup input w = (Raise e, w1) ->
      st = Failed "BackupWorld" (TaskFailed e) /\
      tr = ["BackupWorld"] /\ ~ In "StopTask" tr /\ w' = w1).
Proof.
  unfold execute; cbn [definition sm_timeout stop_definition start next
                        backup_step stop_task_step server_stopped app run
                        state_id].
  rewrite deadline_ahead.
  destruct (invoke backup input w) as [[payload | e] w1] eqn:Hb.
  2:{ intros [= <- <- <-]. split; [auto | split].
      - intros [H | []]; discriminate.
      - intros e' w2 [= <- <-]. repeat split.
        intros [H | []]; discriminate. }
  assert (Hno : forall e w2,
             (Ok payload, w1) = (@Raise value e, w2) -> False)
    by (intros; discriminate).
  destruct (set_path ["backupInfo"] input (invoke_result payload))
    as [merged |].
  2:{ intros [= <- <- <-]. split; [auto | split].
      - intros [H | []]; discriminate.
      - intros e w2 H. destruct (Hno _ _ H). }
  cbn [get_path].
  destruct (Z.leb (clock w + 600) (clock w1)).
  { intros [= <- <- <-]. split; [auto | split].
    - intros [H | []]; discriminate.
    - intros e w2 H. destruct (Hno _ _ H). }
  destruct (invoke (stop_task_lambda d) merged w1) as [[payload2 | e2] w2].
  2:{ intros [= <- <- <-]. split; [auto | split].
      - intros _. eauto.
      - intros e w3 H. destruct (Hno _ _ H). }
  destruct (set_path ["stopInfo"] merged (invoke_result payload2))
    as [merged2 |].
  2:{ intros [= <- <- <-]. split; [auto | split].
      - intros _. eauto.
      - intros e w3 H. destruct (Hno _ _ H). }
  destruct (Z.leb (clock w + 600) (clock w2)).
  { intros [= <- <- <-]. split; [auto | split].
    - intros _. eauto.
    - intros e w3 H. destruct (Hno _ _ H). }
  intros [= <- <- <-]. split; [auto | split].
  - intros _. eauto.
  - intros e w3 H. destruct (Hno _ _ H).
Qed.

(** What the start function returns, when it returns. *)
Lemma start_task_payload (event payload : value) (w w1 : World) :
  invoke (start_task_lambda d) event w = (Ok payload, w1) ->
  payload =
    VDict [("statusCode", VInt 200); ("message", VStr "Server started")] /\
  clock w1 = clock w.
Proof.
  destruct (scale_environment d Start) as [Hc Hs].
  simpl in Hc, Hs |- *.
  unfold invoke, start_task_handler, bind, lift; simpl.
  rewrite Hc, Hs. unfold update_service.
  destruct (ecs_services w !! _); simpl; intros [= <- <-]; split; reflexivity.
Qed.

(** The address resolver reads its cluster from the event, and the payload
    of the start function has none. *)
Lemma get_ip_on_start_payload (w : World) :
  invoke get_ip_lambda
    (VDict [("statusCode", VInt 200); ("message", VStr "Server started")]) w =
  (Raise (KeyError (VStr "cluster")), w).
Proof. reflexivity. Qed.

(** A result path of one field and the output path to the payload under it
    keep the payload alone. *)
Lemma payload_output (k : string) (input payload : value) :
  match set_path [k] input (invoke_result payload) with
  | Some merged => get_path [k; "Payload"] merged = Some payload
  | None => True
  end.
Proof.
  destruct input as [| | | | | items]; simpl; auto.
  induction items as [| [k' v] items IH]; simpl.
  - rewrite String.eqb_refl. reflexivity.
  - destruct (String.eqb k k') eqn:E; simpl.
    + rewrite String.eqb_refl. reflexivity.
    + rewrite E. exact IH.
Qed.

(** C6. No execution of the start sequence gets past GetIP: whatever the
    input and the world, the execution fails, and neither UpdateDNS nor
    ServerReady is entered. StartTask hands on the payload of its function
    alone, and the address resolver looks up a cluster in it. *)
Theorem start_sequence_stops_at_get_ip (input : value) (w : World) :
  let r := execute (start_state_machine d) input w in
  (exists at_state cause, fst (fst r) = Failed at_state cause) /\
  ~ In "UpdateDNS" (snd (fst r)) /\
  ~ In "ServerReady" (snd (fst r)).
Proof.
  unfold execute;
    cbn [start_state_machine definition sm_timeout start_definition start next
         start_task_step wait_for_task get_ip_step update_dns_step
         server_ready app run state_id].
  rewrite deadline_ahead.
  destruct (invoke (start_task_lambda d) input w) as [[payload | e] w1] eqn:Hs.
  2:{ cbn. split; [eauto | split]; intros [H | []]; discriminate. }
  destruct (start_task_payload _ _ _ _ Hs) as [-> Hclock].
  pose proof (payload_output "taskInfo" input
                (VDict [("statusCode", VInt 200);
                        ("message", VStr "Server started")])) as Hout.
  destruct (set_path ["taskInfo"] input _) as [merged |].
  2:{ cbn. split; [eauto | split]; intros [H | []]; discriminate. }
  rewrite Hout.
  destruct (Z.leb (clock w + 600) (clock w1)).
  { cbn. split; [eauto | split]; intros [H | []]; discriminate. }
  destruct (Z.leb (clock w + 600) (clock (advance 30 w1))).
  { cbn. split; [eauto | split]; intros [H | [H | []]]; discriminate. }
  rewrite get_ip_on_start_payload. cbn.
  split; [eauto | split]; intros [H | [H | [H | []]]]; discriminate.
Qed.

(** The wiring of the chain itself does thread the address: from GetIP on,
    with an address resolver that returns, UpdateDNS is invoked with
    exactly the payload GetIP returned. *)
Lemma get_ip_payload_is_update_dns_event
    (get_ip_fn update_dns_fn : lambda) (items : list (string * value))
    (p2 : value) (w w2 : World) (deadline : Z) :
  invoke get_ip_fn (VDict items) w = (Ok p2, w2) ->
  Z.leb deadline (clock w) = false ->
  Z.leb deadline (clock w2) = false ->
  run [get_ip_step get_ip_fn; update_dns_step update_dns_fn; server_ready]
    deadline (VDict items) w =
  match invoke update_dns_fn p2 w2 with
  | (Raise e, w3) =>
      (Failed "UpdateDNS" (TaskFailed e), ["GetIP"; "UpdateDNS"], w3)
  | (Ok p3, w3) =>
      match set_path ["dnsInfo"] p2 (invoke_result p3) with
      | None =>
          (Failed "UpdateDNS" ResultPathMatchFailure, ["GetIP"; "UpdateDNS"], w3)
      | Some output =>
          if Z.leb deadline (clock w3)
          then (Failed "ServerReady" StatesTimeout, ["GetIP"; "UpdateDNS"], w3)
          else (Succeeded output, ["GetIP"; "UpdateDNS"; "ServerReady"], w3)
      end
  end.
Proof.
  intros Hg H1 H2.
  cbn [run get_ip_step update_dns_step server_ready state_id].
  rewrite H1, Hg.
  pose proof (payload_output "ipInfo" (VDict items) p2) as Hout.
  destruct (set_path ["ipInfo"] (VDict items) (invoke_result p2))
    as [merged |] eqn:Hm.
  2:{ simpl in Hm. discriminate Hm. }
  rewrite Hout, H2.
  destruct (invoke update_dns_fn p2 w2) as [[p3 | e] w3]; [| reflexivity].
  destruct (set_path ["dnsInfo"] p2 (invoke_result p3)); [| reflexivity].
  cbn [get_path]. destruct (Z.leb deadline (clock w3)); reflexivity.
Qed.

(** The stop state machine of the stack is the instance with the deployed
    snapshot function. *)
Lemma stop_state_machine_instance :
  stop_state_machine d =
  {| definition := stop_definition (backup_lambda d) (stop_task_lambda d);
     sm_timeout := 600 |}.
Proof. reflexivity. Qed.

End Orchestrator.

(** *** The sizing of the stack *)

Section Sizing.

(** An unhashable size fails the lookup with a type error. *)
Lemma sizing_unhashable_size (config : list (string * value))
    (server_size : value) :
  hashable server_size = false ->
  Stack.init (VDict (("server_size", server_size) :: config)) =
    (Raise (TypeError "unhashable type"), []).
Proof.
  intros Hh. unfold Stack.init, Stack.configure, py_or. simpl.
  unfold Stack.lookup_key. rewrite Hh. reflexivity.
Qed.


End Sizing.

(** *** The theorems at work on the samples *)

(** The deployed service starts at the desired count the stack declares;
    start, stop, stop from there. *)
Lemma scale_sequence_desired_count_witness :
  desired sample_deployment
    (settle sample_deployment
       [(Start, VDict []); (Stop, task_event); (Stop, VDict [])]
       (sample_world [] VNone VNone)) = Some 0.
Proof.
  refine (proj1 (proj2 (proj2
    (scale_sequence_desired_count sample_deployment
       [(Start, VDict []); (Stop, task_event); (Stop, VDict [])]
       (sample_world [] VNone VNone) 1 _ _))) [(Start, VDict []); (Stop, task_event)] Stop (VDict []) _).
  - reflexivity.
  - right; reflexivity.
  - reflexivity.
Defined.

(** An event with no path parameters at all. *)
Lemma api_invalid_action_witness :
  fst (api_handler sample_deployment ∅ (VDict []) (sample_world [] VNone VNone)) =
  Ok (VDict [("statusCode", VInt 400);
             ("body",
              VStr ("{" ++ in_quotes "error" ++ ": " ++
                    in_quotes "Invalid action. Use /start, /stop, or /status"
                    ++ "}"))]).
Proof.
  rewrite (api_invalid_action sample_deployment ∅ (VDict []) (VStr EmptyString)).
  - reflexivity.
  - reflexivity.
  - reflexivity.
Defined.

(** Two tasks listed: the count in the body is 2. *)
Lemma api_status_witness :
  fst (api_handler sample_deployment ∅ (api_event "status")
         (sample_world [VStr "a"; VStr "b"] VNone VNone)) =
  Ok (VDict [("statusCode", VInt 200);
             ("body",
              VStr ("{" ++ in_quotes "status" ++ ": " ++ in_quotes "running" ++
                    ", " ++ in_quotes "taskCount" ++ ": 2}"))]).
Proof.
  rewrite (proj1
    (api_status sample_deployment ∅ (api_event "status")
       (VDict [("taskArns", VList [VStr "a"; VStr "b"])])
       [VStr "a"; VStr "b"] (sample_world [VStr "a"; VStr "b"] VNone VNone)
       eq_refl eq_refl eq_refl)).
  reflexivity.
Defined.

(** No task listed: status 404 and nothing started. Two tasks listed: the
    stop state machine is started for the first, and its execution
    identifier returned. *)
Lemma api_stop_witness :
  (fst (api_handler sample_deployment ∅ (api_event "stop")
          (sample_world [] VNone VNone)) =
     Ok (VDict [("statusCode", VInt 404);
                ("body",
                 VStr ("{" ++ in_quotes "error" ++ ": " ++
                       in_quotes "No running server found" ++ "}"))]) /\
   executions (snd (api_handler sample_deployment ∅ (api_event "stop")
                      (sample_world [] VNone VNone))) = []) /\
  api_handler sample_deployment ∅ (api_event "stop")
    (sample_world [VStr "arn:aws:ecs:::task/1"; VStr "arn:aws:ecs:::task/2"]
       VNone VNone) =
    (Ok (VDict [("statusCode", VInt 200);
                ("body",
                 VStr ("{" ++ in_quotes "message" ++ ": " ++
                       in_quotes "Server stopping" ++ ", " ++
                       in_quotes "executionArn" ++ ": " ++
                       in_quotes "arn:aws:states:::execution:1" ++ "}"))]),
     log (StartExecution "arn:aws:states:::stateMachine:Stop"
            ("{" ++ in_quotes "cluster" ++ ": " ++
             in_quotes "MinecraftCluster" ++ ", " ++
             in_quotes "taskArn" ++ ": " ++
             in_quotes "arn:aws:ecs:::task/1" ++ "}"))
       (log (ListTasks "MinecraftCluster" "RUNNING")
          (sample_world
             [VStr "arn:aws:ecs:::task/1"; VStr "arn:aws:ecs:::task/2"]
             VNone VNone))).
Proof.
  split.
  - destruct (api_stop sample_deployment ∅ (api_event "stop")
                (VDict [("taskArns", VList [])]) []
                (sample_world [] VNone VNone) eq_refl eq_refl eq_refl)
      as (Hfst & _ & Hexec).
    split; [exact Hfst | exact Hexec].
  - destruct (api_stop sample_deployment ∅ (api_event "stop")
                (VDict [("taskArns",
                         VList [VStr "arn:aws:ecs:::task/1";
                                VStr "arn:aws:ecs:::task/2"])])
                [VStr "arn:aws:ecs:::task/1"; VStr "arn:aws:ecs:::task/2"]
                (sample_world
                   [VStr "arn:aws:ecs:::task/1"; VStr "arn:aws:ecs:::task/2"]
                   VNone VNone)
                eq_refl eq_refl eq_refl "arn:aws:ecs:::task/1"
                eq_refl eq_refl eq_refl eq_refl)
      as (Hfst & Hsnd & _).
    apply injective_projections; [exact Hfst | exact Hsnd].
Defined.

(** The snapshot function stalls: the service keeps its desired count. *)
Lemma stop_snapshot_before_scale_down_witness :
  desired sample_deployment
    (snd (execute {| definition :=
                       stop_definition stalled_backup
                         (stop_task_lambda sample_deployment);
                     sm_timeout := 600 |}
            task_event (sample_world [VStr "a"] VNone VNone))) = Some 1.
Proof.
  destruct (execute _ task_event (sample_world [VStr "a"] VNone VNone))
    as [[st tr] w'] eqn:E.
  destruct (stop_snapshot_before_scale_down sample_deployment stalled_backup
              task_event (sample_world [VStr "a"] VNone VNone) w' st tr E)
    as (_ & _ & H).
  destruct (H (Timeout "BackupFunction") (sample_world [VStr "a"] VNone VNone)
              eq_refl) as (_ & _ & _ & ->).
  reflexivity.
Defined.


Lemma sample_time_valid : valid sample_time.
Proof. unfold valid, sample_time; simpl. lia. Qed.

(** The key of a backup taken at the sample time reads back as that time. *)
Lemma backup_key_round_trip_witness :
  parse_backup_key "backups/world-2024-03-09T07:05:00.001234.tar.gz" =
    Some sample_time.
Proof.
  apply (backup_key_round_trip sample_deployment ∅ task_event
           (VStr "MinecraftCluster") (VStr "arn:aws:ecs:::task/1")
           (sample_world [] VNone VNone)).
  - reflexivity.
  - reflexivity.
  - exact sample_time_valid.
Defined.

(** A task that stays pending. *)
Lemma resolver_poll_budget_witness :
  exists (k : nat) (e : exn) (w' : World),
    get_ip_handler ∅ task_event
      (sample_world [] (task_with "PENDING" []) VNone) = (Raise e, w') /\
    (1 <= k <= 20)%nat /\
    calls w' =
      (calls (sample_world [] (task_with "PENDING" []) VNone) ++
       polls k (VStr "MinecraftCluster") [VStr "arn:aws:ecs:::task/1"] 6)%list /\
    clock w' =
      clock (sample_world [] (task_with "PENDING" []) VNone) +
      6 * (Z.of_nat k - 1).
Proof.
  apply (resolver_poll_budget ∅ task_event (VStr "MinecraftCluster")
           (VStr "arn:aws:ecs:::task/1")).
  - reflexivity.
  - reflexivity.
  - intros t response [= <-]. reflexivity.
Defined.



(** *** The handlers on the samples *)

(** The bodies of the control API as JSON text. *)
Example not_found_body :
  dumps (VDict [("error", VStr "No running server found")]) =
  "{" ++ quoted "error" ++ ": " ++ quoted "No running server found" ++ "}".
Proof. reflexivity. Qed.

Example stopped_body :
  dumps (VDict [("status", VStr "stopped")]) =
  "{" ++ quoted "status" ++ ": " ++ quoted "stopped" ++ "}".
Proof. reflexivity. Qed.

Example running_body :
  dumps (VDict [("status", VStr "running"); ("taskCount", VInt 1)]) =
  "{" ++ quoted "status" ++ ": " ++ quoted "running" ++ ", " ++
  quoted "taskCount" ++ ": 1}".
Proof. reflexivity. Qed.

Example invalid_action_body :
  dumps (VDict [("error",
                 VStr "Invalid action. Use /start, /stop, or /status")]) =
  "{" ++ quoted "error" ++ ": " ++
  quoted "Invalid action. Use /start, /stop, or /status" ++ "}".
Proof. reflexivity. Qed.

(** The execution the API starts, with the empty input, on a deployed
    service: the service is scaled up, and the execution fails in GetIP. *)
Example start_execution_from_api :
  let r := execute (start_state_machine sample_deployment) (VDict [])
             (sample_world [] (task_with "RUNNING" [eni_detail])
                public_interface) in
  fst r = (Failed "GetIP" (TaskFailed (KeyError (VStr "cluster"))),
           ["StartTask"; "WaitForTask"; "GetIP"]) /\
  desired sample_deployment (snd r) = Some 1.
Proof. split; reflexivity. Qed.

(** The stop sequence with the deployed functions, on the input the API
    gives it: the snapshot returns, then the service is scaled down. *)
Example stop_execution_from_api :
  let r := execute (stop_state_machine sample_deployment) task_event
             (sample_world [VStr "arn:aws:ecs:::task/1"]
                (task_with "RUNNING" [eni_detail]) public_interface) in
  snd (fst r) = ["BackupWorld"; "StopTask"; "ServerStopped"] /\
  desired sample_deployment (snd r) = Some 0 /\
  calls (snd r) = [UpdateService "MinecraftCluster" "MinecraftService" 0].
Proof. repeat split; reflexivity. Qed.

(** A task that stays pending costs the resolver its 20 attempts and the
    19 sleeps between them. *)
Example resolver_pending_task :
  let r := get_ip_handler ∅ task_event
             (sample_world [] (task_with "PENDING" []) VNone) in
  fst r = Raise (WaiterError "Max attempts exceeded") /\
  clock (snd r) = 114 /\
  calls (snd r) =
    polls 20 (VStr "MinecraftCluster") [VStr "arn:aws:ecs:::task/1"] 6.
Proof. repeat split; reflexivity. Qed.

(** A task with no network interface among its attachment details. *)
Example resolver_no_interface :
  fst (get_ip_handler ∅ task_event
         (sample_world [] (task_with "RUNNING" []) VNone)) =
  Ok (VDict [("statusCode", VInt 500); ("error", VStr "No IP found")]).
Proof. reflexivity. Qed.

(* ===================================================================== *)
(** ** Further properties of the handlers                                 *)
(* ===================================================================== *)

(** *** The name resolution updater *)

Section NameUpdater.

Variable d : deployment.

Lemma update_dns_environment :
  environ_get (environment (update_dns_lambda d)) "ENABLED" "false" =
    (if truthy (enable_route53 d) then "true" else "false") /\
  environ_getitem (environment (update_dns_lambda d)) "HOSTED_ZONE_ID" =
    Ok (hosted_zone_id d) /\
  environ_getitem (environment (update_dns_lambda d)) "DOMAIN_NAME" =
    Ok (domain_name d).
Proof.
  unfold environ_get, environ_getitem; simpl. split; [| split].
  - rewrite lookup_insert_eq. reflexivity.
  - rewrite lookup_insert_ne by discriminate.
    rewrite lookup_insert_eq. reflexivity.
  - rewrite lookup_insert_ne by discriminate.
    rewrite lookup_insert_ne by discriminate.
    rewrite lookup_insert_eq. reflexivity.
Qed.

(** X1. When the configuration leaves Route53 off, the update function
    answers every event, whatever it holds, with status 200 and the message
    Route53 disabled, and makes no call. *)
Theorem update_dns_disabled (event : value) (w : World) :
  truthy (enable_route53 d) = false ->
  invoke (update_dns_lambda d) event w =
    (Ok (VDict [("statusCode", VInt 200); ("message", VStr "Route53 disabled")]),
     w).
Proof.
  intros Hoff.
  destruct update_dns_environment as (He & _ & _). rewrite Hoff in He.
  change (invoke (update_dns_lambda d) event w)
    with (update_dns_handler (environment (update_dns_lambda d)) event w).
  unfold update_dns_handler. rewrite He. reflexivity.
Qed.

(** X2. With Route53 on, an event with no address, or an empty one, gets
    status 400 with the error No IP provided, and no record is written. *)
Theorem update_dns_without_address (event public_ip : value) (w : World) :
  truthy (enable_route53 d) = true ->
  get event "publicIp" (VStr EmptyString) = Ok public_ip ->
  truthy public_ip = false ->
  invoke (update_dns_lambda d) event w =
    (Ok (VDict [("statusCode", VInt 400); ("error", VStr "No IP provided")]),
     w).
Proof.
  intros Hon Hip Hempty.
  destruct update_dns_environment as (He & Hz & Hn). rewrite Hon in He.
  change (invoke (update_dns_lambda d) event w)
    with (update_dns_handler (environment (update_dns_lambda d)) event w).
  unfold update_dns_handler, bind, lift.
  rewrite He, Hz, Hn, Hip, Hempty. reflexivity.
Qed.

(** X3. With Route53 on, an event with an address makes exactly one call:
    an upsert, in the hosted zone of the configuration, of an A record of
    TTL 60 for the configured domain name whose one value is that address;
    the handler returns status 200 with the change identifier Route53
    gave. *)
Theorem update_dns_upserts_address (event public_ip : value) (w : World) :
  truthy (enable_route53 d) = true ->
  get event "publicIp" (VStr EmptyString) = Ok public_ip ->
  truthy public_ip = true ->
  invoke (update_dns_lambda d) event w =
    (Ok (VDict [("statusCode", VInt 200);
                ("changeId", VStr (route53_change_id w (length (calls w))))]),
     log (ChangeResourceRecordSets (hosted_zone_id d)
            (upsert_batch (domain_name d) public_ip)) w).
Proof.
  intros Hon Hip Hfull.
  destruct update_dns_environment as (He & Hz & Hn). rewrite Hon in He.
  change (invoke (update_dns_lambda d) event w)
    with (update_dns_handler (environment (update_dns_lambda d)) event w).
  unfold update_dns_handler, bind, lift.
  rewrite He, Hz, Hn, Hip, Hfull. reflexivity.
Qed.

End NameUpdater.

(** *** The control API, in every case *)

Section ControlApiFrame.

Variable d : deployment.

Lemma executions_log_start (arn input : string) (w : World) :
  executions (log (StartExecution arn input) w) =
  (executions w ++ [StartExecution arn input])%list.
Proof.
  unfold executions; simpl. rewrite List.filter_app. reflexivity.
Qed.

(** X4. An invocation with the action start starts one execution of the
    start state machine, with the empty object as its input, and returns
    the dict of status code 200 whose body is the JSON text of an object
    with the members message, Server starting, and executionArn, the
    identifier Step Functions gave the execution (an identifier of
    characters JSON does not escape); it looks up no task. *)
Theorem api_start (environ : gmap string string) (event : value) (w : World) :
  get_action event = Ok (VStr "start") ->
  let execution_arn := sfn_execution_arn w (length (calls w)) in
  plain execution_arn = true ->
  api_handler d environ event w =
    (Ok (VDict [("statusCode", VInt 200);
                ("body",
                 VStr ("{" ++ in_quotes "message" ++ ": " ++
                       in_quotes "Server starting" ++ ", " ++
                       in_quotes "executionArn" ++ ": " ++
                       in_quotes execution_arn ++ "}"))]),
     log (StartExecution (start_state_machine_arn d) "{}") w).
Proof.
  intros Ha execution_arn Harn.
  assert (Hrun :
    api_handler d environ event w =
      (Ok (response 200
             (VDict [("message", VStr "Server starting");
                     ("executionArn", VStr execution_arn)])),
       log (StartExecution (start_state_machine_arn d) "{}") w)).
  { unfold api_handler, bind, lift. rewrite Ha. reflexivity. }
  rewrite Hrun. unfold response.
  rewrite (dumps_two_strings "message" "Server starting" "executionArn"
             execution_arn); (reflexivity || assumption).
Qed.

(** X5. Whatever the event and the world, and whether it returns or
    raises, the API handler leaves the desired counts of the services and
    the clock as they were, and starts one execution at most. *)
Theorem api_handler_frame (environ : gmap string string) (event : value)
    (w : World) :
  let w' := snd (api_handler d environ event w) in
  ecs_services w' = ecs_services w /\
  clock w' = clock w /\
  (executions w' = executions w \/
   exists c, executions w' = (executions w ++ [c])%list).
Proof.
  unfold api_handler, bind, lift.
  destruct (get_action event) as [action | e]; [| simpl; auto].
  destruct (eq_str action "start").
  { simpl. split; [reflexivity | split; [reflexivity | right]].
    eexists. apply executions_log_start. }
  destruct (eq_str action "stop").
  { unfold list_tasks.
    destruct (ecs_list_tasks w (clock w) (cluster_name d) "RUNNING")
      as [tasks | e]; simpl.
    2:{ split; [reflexivity | split; [reflexivity | left]].
        apply executions_log. reflexivity. }
    destruct (get tasks "taskArns" VNone) as [task_arns | e]; simpl.
    2:{ split; [reflexivity | split; [reflexivity | left]].
        apply executions_log. reflexivity. }
    destruct (truthy task_arns); simpl.
    2:{ split; [reflexivity | split; [reflexivity | left]].
        apply executions_log. reflexivity. }
    destruct (let? task_arns0 := getitem tasks "taskArns" in first task_arns0)
      as [task_arn | e]; simpl.
    2:{ split; [reflexivity | split; [reflexivity | left]].
        apply executions_log. reflexivity. }
    split; [reflexivity | split; [reflexivity | right]].
    eexists. rewrite executions_log_start, executions_log; reflexivity. }
  destruct (eq_str action "status").
  { unfold list_tasks.
    destruct (ecs_list_tasks w (clock w) (cluster_name d) "RUNNING")
      as [tasks | e]; simpl.
    2:{ split; [reflexivity | split; [reflexivity | left]].
        apply executions_log. reflexivity. }
    destruct (get tasks "taskArns" VNone) as [task_arns | e]; simpl.
    2:{ split; [reflexivity | split; [reflexivity | left]].
        apply executions_log. reflexivity. }
    destruct (truthy task_arns); simpl.
    2:{ split; [reflexivity | split; [reflexivity | left]].
        apply executions_log. reflexivity. }
    destruct (let? task_arns0 := getitem tasks "taskArns" in len task_arns0)
      as [n | e]; simpl;
      (split; [reflexivity | split; [reflexivity | left]];
       apply executions_log; reflexivity). }
  simpl. auto.
Qed.

(** X6. Whenever the API handler returns, what it returns has a status
    code and a body, in that order and nothing else; the code is 200, 400
    or 404, and the body is a string. *)
Theorem api_handler_response_shape (environ : gmap string string)
    (event payload : value) (w w' : World) :
  api_handler d environ event w = (Ok payload, w') ->
  exists (code : Z) (body : string),
    payload = VDict [("statusCode", VInt code); ("body", VStr body)] /\
    (code = 200 \/ code = 400 \/ code = 404).
Proof.
  unfold api_handler, bind, lift, response.
  destruct (get_action event) as [action | e]; [| discriminate].
  destruct (eq_str action "start").
  { simpl. intros [= <- <-]. eauto. }
  destruct (eq_str action "stop").
  { unfold list_tasks.
    destruct (ecs_list_tasks w (clock w) (cluster_name d) "RUNNING")
      as [tasks | e]; simpl; [| discriminate].
    destruct (get tasks "taskArns" VNone) as [task_arns | e]; simpl;
      [| discriminate].
    destruct (truthy task_arns); simpl.
    2:{ intros [= <- <-]. eauto 6. }
    destruct (let? task_arns0 := getitem tasks "taskArns" in first task_arns0)
      as [task_arn | e]; simpl; [| discriminate].
    intros [= <- <-]. eauto. }
  destruct (eq_str action "status").
  { unfold list_tasks.
    destruct (ecs_list_tasks w (clock w) (cluster_name d) "RUNNING")
      as [tasks | e]; simpl; [| discriminate].
    destruct (get tasks "taskArns" VNone) as [task_arns | e]; simpl;
      [| discriminate].
    destruct (truthy task_arns); simpl.
    2:{ intros [= <- <-]. eauto. }
    destruct (let? task_arns0 := getitem tasks "taskArns" in len task_arns0)
      as [n | e]; simpl; [| discriminate].
    intros [= <- <-]. eauto. }
  simpl. intros [= <- <-]. eauto 6.
Qed.

End ControlApiFrame.

(** *** The loops of the address resolver over attachments and details *)

Section InterfaceScan.

Lemma scan_details_none (details : list value) (eni_id : value) :
  Forall other_detail details -> scan_details details eni_id = Ok eni_id.
Proof.
  induction 1 as [| detail rest (name & Hname & Hother) _ IH]; simpl.
  - reflexivity.
  - rewrite Hname. simpl. rewrite Hother. exact IH.
Qed.

(** X7. Within one attachment the first detail named networkInterfaceId
    gives the interface, whatever was found before and whatever follows
    it: the details after it are not read. *)
Theorem scan_details_first (before after : list value)
    (detail eni eni_id : value) :
  Forall other_detail before ->
  interface_detail detail eni ->
  scan_details (before ++ detail :: after) eni_id = Ok eni.
Proof.
  intros Hbefore (name & Hname & Hnamed & Hvalue).
  induction Hbefore as [| d rest (n & Hn & Hother) _ IH]; simpl.
  - rewrite Hname. simpl. rewrite Hnamed. exact Hvalue.
  - rewrite Hn. simpl. rewrite Hother. exact IH.
Qed.

Lemma scan_attachments_app (first_ones last_ones : list value) :
  forall eni_id : value,
    scan_attachments (first_ones ++ last_ones) eni_id =
    (let? found := scan_attachments first_ones eni_id in
     scan_attachments last_ones found).
Proof.
  induction first_ones as [| attachment rest IH]; intros eni_id; simpl.
  - reflexivity.
  - destruct (get attachment "details" (VList [])) as [ds | e]; simpl;
      [| reflexivity].
    destruct (iter ds) as [details | e]; simpl; [| reflexivity].
    destruct (scan_details details eni_id) as [found | e]; simpl;
      [apply IH | reflexivity].
Qed.

Lemma scan_attachments_none (attachments : list value) :
  forall eni_id : value,
    Forall (fun attachment =>
              exists details,
                attachment_details attachment details /\
                Forall other_detail details) attachments ->
    scan_attachments attachments eni_id = Ok eni_id.
Proof.
  induction attachments as [| attachment rest IH]; intros eni_id Hall; simpl.
  - reflexivity.
  - inversion Hall as [| ? ? (details & Hd & Hother) Hrest]; subst.
    unfold attachment_details in Hd.
    destruct (get attachment "details" (VList [])) as [ds | e]; simpl in *;
      [| discriminate].
    rewrite Hd. simpl. rewrite (scan_details_none _ _ Hother). simpl.
    apply IH. exact Hrest.
Qed.

(** X8. Over the attachments the last one that names an interface
    decides: the break leaves the inner loop only, so an interface found
    in an earlier attachment is replaced by the one a later attachment
    names. *)
Theorem scan_attachments_last_named
    (earlier later before after : list value)
    (attachment detail eni eni_id found : value) :
  scan_attachments earlier eni_id = Ok found ->
  attachment_details attachment (before ++ detail :: after) ->
  Forall other_detail before ->
  interface_detail detail eni ->
  Forall (fun a =>
            exists details,
              attachment_details a details /\ Forall other_detail details)
    later ->
  scan_attachments (earlier ++ attachment :: later) eni_id = Ok eni.
Proof.
  intros Hearlier Hdetails Hbefore Hdetail Hlater.
  rewrite scan_attachments_app, Hearlier. simpl.
  unfold attachment_details in Hdetails.
  destruct (get attachment "details" (VList [])) as [ds | e]; simpl in *;
    [| discriminate].
  rewrite Hdetails. simpl.
  rewrite (scan_details_first before after detail eni found Hbefore Hdetail).
  simpl. apply scan_attachments_none. exact Hlater.
Qed.

End InterfaceScan.

(** *** The wait of the address resolver, in every world *)

Section WaitBudget.

Variables (cluster : value) (tasks : list value) (delay max_attempts : Z).

Lemma executions_polls (k : nat) :
  List.filter is_start_execution (polls k cluster tasks delay) = [].
Proof.
  induction k as [| k IH]; [reflexivity |].
  destruct k; [reflexivity | exact IH].
Qed.

Lemma polls_succ (k : nat) :
  (1 <= k)%nat ->
  polls (S k) cluster tasks delay =
  DescribeTasks cluster tasks :: Sleep delay :: polls k cluster tasks delay.
Proof. destruct k; [lia | reflexivity]. Qed.

(** Whatever the service answers, the loop ends after at most the attempts
    it had left (one at least), with the delay between them, and writes no
    desired count. *)
Lemma wait_loop_budget (fuel : nat) :
  forall (num_attempts : Z) (w : World),
    (1 <= fuel)%nat ->
    (Z.to_nat (max_attempts - num_attempts) <= fuel)%nat ->
    exists (k : nat) (r : result unit) (w' : World),
      wait_loop fuel cluster tasks delay max_attempts num_attempts w
        = Some (r, w') /\
      (1 <= k)%nat /\ Z.of_nat k <= Z.max 1 (max_attempts - num_attempts) /\
      calls w' = (calls w ++ polls k cluster tasks delay)%list /\
      clock w' = clock w + delay * (Z.of_nat k - 1) /\
      ecs_services w' = ecs_services w.
Proof.
  induction fuel as [| fuel IH]; intros num w H1 Hfuel; [lia |].
  cbn [wait_loop]. unfold describe_tasks.
  destruct (ecs_describe_tasks w (clock w) cluster tasks) as [response | e].
  2:{ exists 1%nat.
      destruct e; do 2 eexists; (split; [reflexivity |]); simpl;
        repeat split; lia. }
  destruct (tasks_running_state response).
  3:{ exists 1%nat. do 2 eexists. split; [reflexivity |].
      simpl. repeat split; lia. }
  2:{ exists 1%nat. do 2 eexists. split; [reflexivity |].
      simpl. repeat split; lia. }
  destruct (Z.leb max_attempts (num + 1)) eqn:E.
  { exists 1%nat. do 2 eexists. split; [reflexivity |].
    simpl. repeat split; lia. }
  apply Z.leb_gt in E.
  set (w2 := snd (sleep delay (log (DescribeTasks cluster tasks) w))).
  destruct (IH (num + 1) w2)
    as (k & r & w' & Hrun & Hk1 & Hk & Hcalls & Hclock & Hsvc); [lia | lia |].
  exists (S k), r, w'. split; [exact Hrun |].
  split; [lia |]. split; [lia |]. split; [| split].
  - rewrite Hcalls, (polls_succ k Hk1). subst w2; simpl.
    rewrite <- !app_assoc. reflexivity.
  - rewrite Hclock. subst w2; simpl. lia.
  - rewrite Hsvc. reflexivity.
Qed.

(** X9. In every world the wait ends, returning or raising, after at
    least one and at most [max_attempts] calls of DescribeTasks (one when
    [max_attempts] is below one), with a sleep of [delay] between one call
    and the next and nothing else in the log, and with the desired counts
    untouched. *)
Theorem wait_budget (w : World) :
  exists k : nat,
    let w' := snd (wait cluster tasks delay max_attempts w) in
    (1 <= k)%nat /\ Z.of_nat k <= Z.max 1 max_attempts /\
    calls w' = (calls w ++ polls k cluster tasks delay)%list /\
    clock w' = clock w + delay * (Z.of_nat k - 1) /\
    ecs_services w' = ecs_services w.
Proof.
  destruct (wait_loop_budget (Z.to_nat (Z.max 1 max_attempts)) 0 w)
    as (k & r & w' & Hrun & Hk1 & Hk & Hcalls & Hclock & Hsvc); [lia | lia |].
  exists k. unfold wait. rewrite Hrun. simpl.
  replace (max_attempts - 0) with max_attempts in Hk by lia. auto.
Qed.

Lemma wait_loop_success (k : nat) :
  forall (fuel : nat) (num_attempts : Z) (w : World),
    (k < fuel)%nat ->
    num_attempts + Z.of_nat k < max_attempts ->
    (forall i, (i < k)%nat ->
               exists response,
                 answer_at cluster tasks delay w i = Ok response /\
                 tasks_running_state response = Waiting) ->
    (exists response,
        answer_at cluster tasks delay w k = Ok response /\
        tasks_running_state response = Success) ->
    exists w',
      wait_loop fuel cluster tasks delay max_attempts num_attempts w
        = Some (Ok tt, w') /\
      calls w' = (calls w ++ polls (S k) cluster tasks delay)%list /\
      clock w' = clock w + delay * Z.of_nat k.
Proof.
  induction k as [| k IH]; intros fuel num w Hfuel Hnum Hwaiting Hrunning.
  - destruct fuel as [| fuel]; [lia |].
    destruct Hrunning as (response & Hanswer & Hstate).
    unfold answer_at in Hanswer.
    replace (clock w + delay * Z.of_nat 0) with (clock w) in Hanswer by lia.
    cbn [wait_loop]. unfold describe_tasks. rewrite Hanswer, Hstate.
    eexists. split; [reflexivity |]. simpl. split; [reflexivity | lia].
  - destruct fuel as [| fuel]; [lia |].
    destruct (Hwaiting 0%nat) as (response & Hanswer & Hstate); [lia |].
    unfold answer_at in Hanswer.
    replace (clock w + delay * Z.of_nat 0) with (clock w) in Hanswer by lia.
    cbn [wait_loop]. unfold describe_tasks. rewrite Hanswer, Hstate.
    replace (Z.leb max_attempts (num + 1)) with false
      by (symmetry; apply Z.leb_gt; lia).
    set (w2 := snd (sleep delay (log (DescribeTasks cluster tasks) w))).
    assert (Hshift : forall i, answer_at cluster tasks delay w2 i = answer_at cluster tasks delay w (S i)).
    { intros i. unfold answer_at. subst w2; simpl. f_equal. lia. }
    destruct (IH fuel (num + 1) w2) as (w' & Hrun & Hcalls & Hclock).
    + lia.
    + lia.
    + intros i Hi. rewrite Hshift. apply Hwaiting. lia.
    + rewrite Hshift. exact Hrunning.
    + exists w'. split; [exact Hrun |]. split.
      * rewrite Hcalls, (polls_succ (S k)) by lia. subst w2; simpl.
        rewrite <- !app_assoc. reflexivity.
      * rewrite Hclock. subst w2; simpl. lia.
Qed.

(** X10. When the task shows as running at the attempt number [k] (from
    0, with [k] below [max_attempts]) and matched no acceptor at the
    attempts before, the wait returns right after that attempt: [k + 1]
    calls of DescribeTasks, [k] sleeps, [k] times [delay] on the clock. *)
Theorem wait_returns_when_running (k : nat) (w : World) :
  Z.of_nat k < max_attempts ->
  (forall i, (i < k)%nat ->
             exists response,
               answer_at cluster tasks delay w i = Ok response /\
               tasks_running_state response = Waiting) ->
  (exists response,
      answer_at cluster tasks delay w k = Ok response /\
      tasks_running_state response = Success) ->
  exists w',
    wait cluster tasks delay max_attempts w = (Ok tt, w') /\
    calls w' = (calls w ++ polls (S k) cluster tasks delay)%list /\
    clock w' = clock w + delay * Z.of_nat k.
Proof.
  intros Hk Hwaiting Hrunning.
  destruct (wait_loop_success k (Z.to_nat (Z.max 1 max_attempts)) 0 w)
    as (w' & Hrun & Hcalls & Hclock); try assumption; try lia.
  exists w'. unfold wait. rewrite Hrun. auto.
Qed.

End WaitBudget.

(** *** The address resolver and the snapshot trigger, in every case *)

Section ReadOnlyHandlers.

Variables (d : deployment) (environ : gmap string string).

(** X11. Whatever the event and the world, and whether it returns or
    raises, the address resolver writes no desired count and starts no
    execution, and it takes at most 114 seconds of sleep: 19 delays of 6
    seconds. *)
Theorem resolver_frame (event : value) (w : World) :
  let w' := snd (get_ip_handler environ event w) in
  ecs_services w' = ecs_services w /\
  executions w' = executions w /\
  clock w <= clock w' <= clock w + 114.
Proof.
  unfold get_ip_handler, bind, lift.
  destruct (getitem event "cluster") as [cluster | e];
    [| simpl; split; [reflexivity | split; [reflexivity | lia]]].
  destruct (getitem event "taskArn") as [task_arn | e];
    [| simpl; split; [reflexivity | split; [reflexivity | lia]]].
  destruct (wait_budget cluster [task_arn] 6 20 w)
    as (k & Hk1 & Hk & Hcalls & Hclock & Hsvc).
  destruct (wait cluster [task_arn] 6 20 w) as [[[] | e] w1]; simpl in *.
  2:{ split; [exact Hsvc | split; [| lia]].
      unfold executions. rewrite Hcalls, List.filter_app, executions_polls.
      apply app_nil_r. }
  assert (Hexec : executions w1 = executions w).
  { unfold executions. rewrite Hcalls, List.filter_app, executions_polls.
    apply app_nil_r. }
  assert (Htime : clock w <= clock w1 <= clock w + 114) by lia.
  unfold describe_tasks.
  destruct (ecs_describe_tasks w1 (clock w1) cluster [task_arn])
    as [response | e]; simpl.
  2:{ rewrite executions_log by reflexivity. auto. }
  destruct (let? tasks := getitem response "tasks" in first tasks)
    as [task | e]; simpl.
  2:{ rewrite executions_log by reflexivity. auto. }
  destruct (find_eni_id task) as [eni_id | e]; simpl.
  2:{ rewrite executions_log by reflexivity. auto. }
  destruct (truthy eni_id); simpl.
  2:{ rewrite executions_log by reflexivity. auto. }
  unfold describe_network_interfaces.
  destruct (ec2_describe_network_interfaces _ _ _) as [eni_response | e];
    simpl.
  2:{ rewrite !executions_log by reflexivity. auto. }
  destruct (read_public_ip eni_response) as [public_ip | e]; simpl;
    rewrite !executions_log by reflexivity; auto.
Qed.

(** X12. An event that is a dict without the key cluster, or with it and
    without the key taskArn, makes the address resolver and the snapshot
    trigger raise a key error on the missing key before any call: the
    world is as it was. *)
Theorem handlers_missing_key (items : list (string * value)) (key : string)
    (w : World) :
  key = "cluster" \/ (key = "taskArn" /\ is_Some (assoc "cluster" items)) ->
  assoc key items = None ->
  get_ip_handler environ (VDict items) w = (Raise (KeyError (VStr key)), w) /\
  backup_handler d environ (VDict items) w = (Raise (KeyError (VStr key)), w).
Proof.
  intros [-> | [-> [cluster Hcluster]]] Hmissing;
    unfold get_ip_handler, backup_handler, bind, lift; simpl.
  - rewrite Hmissing. split; reflexivity.
  - rewrite Hcluster, Hmissing. split; reflexivity.
Qed.

(** X13. The snapshot trigger is a stub: whatever the event and the
    world, and whether it returns or raises, it leaves the world as it
    was, with no call logged and no time passed. *)
Theorem backup_leaves_world (event : value) (w : World) :
  snd (backup_handler d environ event w) = w.
Proof.
  unfold backup_handler, bind, lift, utcnow.
  destruct (getitem event "cluster"); [| reflexivity].
  destruct (getitem event "taskArn"); reflexivity.
Qed.

(** X14. Two timestamps the clock can give have the same backup key only
    when they are the same timestamp: snapshots taken at different
    microseconds never share a key. *)
Theorem backup_key_injective (t1 t2 : datetime) :
  valid t1 -> valid t2 ->
  backup_key (isoformat t1) = backup_key (isoformat t2) ->
  t1 = t2.
Proof.
  intros H1 H2 Hkey.
  assert (Hparse : forall t, valid t ->
            parse_backup_key (backup_key (isoformat t)) = Some t).
  { intros t Ht. unfold parse_backup_key, key_timestamp, backup_key.
    rewrite strip_prefix_append. cbn [mbind option_bind].
    rewrite strip_suffix_append. cbn [mbind option_bind].
    apply fromisoformat_isoformat. exact Ht. }
  pose proof (Hparse t1 H1) as P1. pose proof (Hparse t2 H2) as P2.
  rewrite Hkey in P1. congruence.
Qed.

End ReadOnlyHandlers.

(** *** Executions of the two sequences *)

Section Executions.

(** A chain that ends in its one terminal state enters its states in
    their order, from the first, and succeeds only having entered them
    all. *)
Lemma run_in_order (body : list state) (last_id : string) :
  Forall goes_on body ->
  forall (deadline : Z) (input : value) (w w' : World) (st : status)
         (tr : list string),
    run (body ++ [Succeed last_id])%list deadline input w = (st, tr, w') ->
    tr `prefix_of` (map state_id body ++ [last_id])%list /\
    (forall output, st = Succeeded output ->
                    tr = (map state_id body ++ [last_id])%list).
Proof.
  induction 1 as [| s body Hs _ IH]; intros deadline input w w' st tr.
  - cbn [app run state_id map].
    destruct (Z.leb deadline (clock w)); intros [= <- <- <-].
    + split; [apply prefix_nil | discriminate].
    + split; [reflexivity | reflexivity].
  - change ((s :: body) ++ [Succeed last_id])%list
      with (s :: (body ++ [Succeed last_id])%list)%list.
    cbn [run map app].
    destruct (Z.leb deadline (clock w)).
    { intros [= <- <- <-]. split; [apply prefix_nil | discriminate]. }
    destruct s as [id f rp op | id seconds | id]; [| | destruct Hs].
    + destruct (invoke f input w) as [[payload | e] w1].
      2:{ intros [= <- <- <-].
          split; [apply prefix_cons, prefix_nil | discriminate]. }
      destruct (set_path rp input (invoke_result payload)) as [merged |].
      2:{ intros [= <- <- <-].
          split; [apply prefix_cons, prefix_nil | discriminate]. }
      destruct (get_path op merged) as [output |].
      2:{ intros [= <- <- <-].
          split; [apply prefix_cons, prefix_nil | discriminate]. }
      destruct (run (body ++ [Succeed last_id])%list deadline output w1)
        as [[st1 tr1] w2] eqn:Hrest.
      intros [= <- <- <-].
      destruct (IH _ _ _ _ _ _ Hrest) as [Hprefix Hfull].
      split; [apply prefix_cons, Hprefix |].
      intros out Hout. cbn [state_id]. f_equal. eapply Hfull, Hout.
    + destruct (run (body ++ [Succeed last_id])%list deadline input
                  (advance seconds w)) as [[st1 tr1] w2] eqn:Hrest.
      intros [= <- <- <-].
      destruct (IH _ _ _ _ _ _ Hrest) as [Hprefix Hfull].
      split; [apply prefix_cons, Hprefix |].
      intros out Hout. cbn [state_id]. f_equal. eapply Hfull, Hout.
Qed.

(** X15. With any three functions in its task states, an execution of the
    start sequence enters the states in the declared order, from StartTask
    on and without skipping one, and it succeeds only when it has entered
    all five. *)
Theorem start_sequence_in_order
    (start_fn get_ip_fn update_dns_fn : lambda) (input : value)
    (w w' : World) (st : status) (tr : list string) :
  execute {| definition := start_definition start_fn get_ip_fn update_dns_fn;
             sm_timeout := 600 |} input w = (st, tr, w') ->
  tr `prefix_of`
    ["StartTask"; "WaitForTask"; "GetIP"; "UpdateDNS"; "ServerReady"] /\
  (forall output,
      st = Succeeded output ->
      tr = ["StartTask"; "WaitForTask"; "GetIP"; "UpdateDNS"; "ServerReady"]).
Proof.
  unfold execute; cbn [definition sm_timeout].
  apply (run_in_order
           [start_task_step start_fn; wait_for_task; get_ip_step get_ip_fn;
            update_dns_step update_dns_fn] "ServerReady").
  repeat constructor.
Qed.

Variable d : deployment.

(** X16. On a deployed service, a start execution whose input is an
    object (the API gives the empty one) sets the desired count to 1,
    waits its 30 seconds, and fails in GetIP on the key cluster; the
    failure undoes nothing: the desired count stays at 1. *)
Theorem start_execution_scales_up (items : list (string * value))
    (w : World) (n : Z) :
  desired d w = Some n ->
  let w' :=
    advance 30
      (set_desired (cluster_name d, service_name d) 1
         (log (UpdateService (cluster_name d) (service_name d) 1) w)) in
  execute (start_state_machine d) (VDict items) w =
    (Failed "GetIP" (TaskFailed (KeyError (VStr "cluster"))),
     ["StartTask"; "WaitForTask"; "GetIP"], w') /\
  desired d w' = Some 1.
Proof.
  intros Hn w'.
  split; [| unfold desired; simpl; apply lookup_insert_eq].
  unfold execute;
    cbn [start_state_machine definition sm_timeout start_definition start next
         start_task_step wait_for_task get_ip_step update_dns_step
         server_ready app run state_id].
  rewrite deadline_ahead.
  destruct (scale_step d Start (VDict items) w n Hn) as (payload & Hrun & _).
  change (scale_lambda d Start) with (start_task_lambda d) in Hrun.
  destruct (start_task_payload d _ _ _ _ Hrun) as [-> _].
  rewrite Hrun.
  pose proof (payload_output "taskInfo" (VDict items)
                (VDict [("statusCode", VInt 200);
                        ("message", VStr "Server started")])) as Hout.
  destruct (set_path ["taskInfo"] (VDict items) _) as [merged |] eqn:Hm.
  2:{ simpl in Hm. discriminate Hm. }
  rewrite Hout.
  cbn [set_desired log advance clock target].
  rewrite deadline_ahead.
  replace (Z.leb (clock w + 600) (clock w + 30)) with false
    by (symmetry; apply Z.leb_gt; lia).
  reflexivity.
Qed.

Lemma assoc_set_same (k : string) (v : value) (items : list (string * value)) :
  assoc k (assoc_set k v items) = Some v.
Proof.
  induction items as [| [k' v'] items IH]; simpl.
  - rewrite String.eqb_refl. reflexivity.
  - destruct (String.eqb k k') eqn:E; simpl.
    + rewrite String.eqb_refl. reflexivity.
    + rewrite E. exact IH.
Qed.

Lemma assoc_set_other (k k' : string) (v : value)
    (items : list (string * value)) :
  String.eqb k' k = false ->
  assoc k' (assoc_set k v items) = assoc k' items.
Proof.
  intros Hne.
  induction items as [| [k0 v0] items IH]; simpl.
  - rewrite Hne. reflexivity.
  - destruct (String.eqb k k0) eqn:E; simpl.
    + apply String.eqb_eq in E. subst k0. rewrite Hne. reflexivity.
    + rewrite IH. reflexivity.
Qed.

(** X17. On a deployed service, a stop execution whose input names a
    cluster and a task runs its three states and succeeds: the snapshot
    trigger answers first, the desired count is then set to 0 by the one
    call the execution makes, and the output carries, under
    backupInfo.Payload.backupKey, the key made from the time of the
    execution. *)
Theorem stop_execution_scales_down (items : list (string * value))
    (cluster task_arn : value) (w : World) (n : Z) :
  desired d w = Some n ->
  assoc "cluster" items = Some cluster ->
  assoc "taskArn" items = Some task_arn ->
  let w' :=
    set_desired (cluster_name d, service_name d) 0
      (log (UpdateService (cluster_name d) (service_name d) 0) w) in
  exists output,
    execute (stop_state_machine d) (VDict items) w =
      (Succeeded output, ["BackupWorld"; "StopTask"; "ServerStopped"], w') /\
    desired d w' = Some 0 /\
    get_path ["backupInfo"; "Payload"; "backupKey"] output =
      Some (VStr (backup_key (isoformat (wall_clock w (clock w))))).
Proof.
  intros Hn Hc Ht w'.
  unfold execute;
    cbn [stop_state_machine definition sm_timeout stop_definition start next
         backup_step stop_task_step server_stopped app run state_id].
  rewrite deadline_ahead.
  assert (Hbackup :
    invoke (backup_lambda d) (VDict items) w =
      (Ok (VDict [("statusCode", VInt 200);
                  ("backupKey",
                   VStr (backup_key (isoformat (wall_clock w (clock w)))));
                  ("timestamp", VStr (isoformat (wall_clock w (clock w))))]),
       w)).
  { unfold invoke; cbn [backup_lambda handler environment].
    unfold backup_handler, bind, lift, utcnow; simpl.
    rewrite Hc, Ht. reflexivity. }
  rewrite Hbackup. cbn [set_path get_path]. rewrite deadline_ahead.
  set (merged := VDict (assoc_set "backupInfo" _ items)).
  destruct (scale_step d Stop merged w n Hn) as (payload & Hrun & _).
  change (scale_lambda d Stop) with (stop_task_lambda d) in Hrun.
  rewrite Hrun. subst merged. cbn [set_path get_path].
  cbn [set_desired log clock target]. rewrite deadline_ahead.
  eexists. split; [reflexivity |]. split.
  - unfold desired; simpl. apply lookup_insert_eq.
  - cbn [get_path].
    rewrite assoc_set_other by reflexivity.
    rewrite assoc_set_same. reflexivity.
Qed.

End Executions.

(** *** The application *)

Section Application.

Variables (context : gmap string value) (environ : gmap string string).

Lemma py_or_left (x y : value) : truthy x = true -> py_or x y = x.
Proof. unfold py_or. intros ->. reflexivity. Qed.

Lemma py_or_right (x y : value) : truthy x = false -> py_or x y = y.
Proof. unfold py_or. intros ->. reflexivity. Qed.

Lemma py_or_truthy (x y : value) :
  truthy y = true -> truthy (py_or x y) = true.
Proof.
  intros Hy. unfold py_or. destruct (truthy x) eqn:E; assumption.
Qed.

(** A variable of the environment that is not set, or set to the empty
    string, reads as a falsy value. *)
Lemma getenv_unset (k : string) :
  environ !! k = None \/ environ !! k = Some EmptyString ->
  truthy (App.getenv environ k) = false.
Proof. unfold App.getenv. intros [-> | ->]; reflexivity. Qed.

(** X18. Whatever the context and the environment hold, the region the
    application deploys to is never an empty or missing value; and when
    nothing gives one (the context value missing or falsy, the two
    variables of the environment not set or empty) it is us-east-1. *)
Theorem region_never_empty :
  truthy (App.region context environ) = true /\
  (truthy (App.try_get_context context "region") = false ->
   environ !! "CDK_DEPLOY_REGION" = None \/
   environ !! "CDK_DEPLOY_REGION" = Some EmptyString ->
   environ !! "CDK_DEFAULT_REGION" = None \/
   environ !! "CDK_DEFAULT_REGION" = Some EmptyString ->
   App.region context environ = VStr "us-east-1").
Proof.
  split.
  - unfold App.region. apply py_or_truthy. reflexivity.
  - intros Hctx Hdeploy Hdefault. unfold App.region.
    rewrite (py_or_right _ _ Hctx).
    rewrite (py_or_right _ _ (getenv_unset _ Hdeploy)).
    apply py_or_right, getenv_unset, Hdefault.
Qed.

(** X19. A context value that is missing or falsy (None, the empty
    string) does not count: the region is then the deploy variable of the
    environment when that is set and not empty, before the default
    variable and before us-east-1. *)
Theorem region_from_deploy_variable (r : string) :
  truthy (App.try_get_context context "region") = false ->
  environ !! "CDK_DEPLOY_REGION" = Some r ->
  r <> EmptyString ->
  App.region context environ = VStr r.
Proof.
  intros Hctx Henv Hr.
  assert (Htrue : truthy (VStr r) = true).
  { simpl. destruct (String.eqb_spec r EmptyString); [contradiction |].
    reflexivity. }
  unfold App.region, App.getenv at 1. rewrite Henv.
  rewrite (py_or_right _ _ Hctx).
  rewrite (py_or_left (VStr r)) by exact Htrue.
  apply py_or_left. exact Htrue.
Qed.

(** X20. With no usable prefix in the context, the stack is named by the
    prefix variable of the environment put before MinecraftServer, and
    when that variable is not set the name is NoneMinecraftServer: the
    missing prefix is written out as None. *)
Theorem stack_id_without_context_prefix :
  truthy (App.try_get_context context "bucket_name_prefix") = false ->
  App.stack_id context environ =
    match environ !! "BUCKET_NAME_PREFIX" with
    | Some p => p ++ "MinecraftServer"
    | None => "NoneMinecraftServer"
    end.
Proof.
  intros Hctx. unfold App.stack_id, App.prefix, py_or, App.getenv.
  rewrite Hctx. destruct (environ !! "BUCKET_NAME_PREFIX"); reflexivity.
Qed.

End Application.

(** *** The scale controller and the rest of the cluster *)

Section ScaleFrame.

Variable d : deployment.

(** X21. A sequence of start and stop operations on a deployed service
    makes one UpdateService call for each operation, in their order and
    for that service, passes no time, and leaves the desired count of
    every other service as it was. *)
Theorem scale_sequence_frame (ops : list (scale_op * value)) :
  forall (w : World) (n : Z),
    desired d w = Some n ->
    calls (settle d ops w) = (calls w ++ map (scale_call d) ops)%list /\
    clock (settle d ops w) = clock w /\
    (forall k, k <> (cluster_name d, service_name d) ->
               ecs_services (settle d ops w) !! k = ecs_services w !! k).
Proof.
  induction ops as [| [op event] rest IH]; intros w n Hn.
  - unfold settle; simpl. rewrite app_nil_r. auto.
  - rewrite settle_cons.
    destruct (scale_step d op event w n Hn) as (payload & Hrun & _).
    rewrite Hrun. cbn [snd].
    destruct (IH _ _ (desired_after_scale d op w
                        (UpdateService (cluster_name d) (service_name d)
                           (target op))))
      as (Hcalls & Hclock & Hothers).
    split; [| split].
    + rewrite Hcalls. simpl. rewrite <- app_assoc. reflexivity.
    + rewrite Hclock. reflexivity.
    + intros k Hk. rewrite (Hothers k Hk). simpl.
      apply lookup_insert_ne. congruence.
Qed.

End ScaleFrame.

(** *** The further properties at work on the samples *)

Lemma update_dns_disabled_witness :
  invoke (update_dns_lambda sample_deployment) (resolved "203.0.113.7")
    (sample_world [] VNone VNone) =
  (Ok (VDict [("statusCode", VInt 200); ("message", VStr "Route53 disabled")]),
   sample_world [] VNone VNone).
Proof.
  apply (update_dns_disabled sample_deployment). reflexivity.
Defined.

(** The empty address the resolver returns for an interface without one. *)
Lemma update_dns_without_address_witness :
  invoke (update_dns_lambda dns_deployment) (resolved EmptyString)
    (sample_world [] VNone VNone) =
  (Ok (VDict [("statusCode", VInt 400); ("error", VStr "No IP provided")]),
   sample_world [] VNone VNone).
Proof.
  apply (update_dns_without_address dns_deployment (resolved EmptyString)
           (VStr EmptyString)).
  - reflexivity.
  - reflexivity.
  - reflexivity.
Defined.

Lemma update_dns_upserts_address_witness :
  calls (snd (invoke (update_dns_lambda dns_deployment)
                (resolved "203.0.113.7") (sample_world [] VNone VNone))) =
  [ChangeResourceRecordSets "Z1"
     (upsert_batch "mc.example.org" (VStr "203.0.113.7"))].
Proof.
  rewrite (update_dns_upserts_address dns_deployment (resolved "203.0.113.7")
             (VStr "203.0.113.7") (sample_world [] VNone VNone)
             eq_refl eq_refl eq_refl).
  reflexivity.
Defined.

Lemma api_start_witness :
  api_handler sample_deployment ∅ (api_event "start")
    (sample_world [] VNone VNone) =
  (Ok (VDict [("statusCode", VInt 200);
              ("body",
               VStr ("{" ++ in_quotes "message" ++ ": " ++
                     in_quotes "Server starting" ++ ", " ++
                     in_quotes "executionArn" ++ ": " ++
                     in_quotes "arn:aws:states:::execution:1" ++ "}"))]),
   log (StartExecution "arn:aws:states:::stateMachine:Start" "{}")
     (sample_world [] VNone VNone)).
Proof.
  apply (api_start sample_deployment ∅ (api_event "start")
           (sample_world [] VNone VNone)).
  - reflexivity.
  - reflexivity.
Defined.

Lemma api_handler_response_shape_witness :
  exists (code : Z) (body : string),
    response 404 (VDict [("error", VStr "No running server found")]) =
      VDict [("statusCode", VInt code); ("body", VStr body)] /\
    (code = 200 \/ code = 400 \/ code = 404).
Proof.
  apply (api_handler_response_shape sample_deployment ∅ (api_event "stop")
           (response 404 (VDict [("error", VStr "No running server found")]))
           (sample_world [] VNone VNone)
           (log (ListTasks "MinecraftCluster" "RUNNING")
              (sample_world [] VNone VNone))).
  reflexivity.
Defined.

(** The detail after the interface is not even a dict. *)
Lemma scan_details_first_witness :
  scan_details [subnet_detail; eni_detail; VNone] VNone = Ok (VStr "eni-1").
Proof.
  apply (scan_details_first [subnet_detail] [VNone] eni_detail (VStr "eni-1")).
  - constructor; [| constructor].
    exists (VStr "subnetId"). split; reflexivity.
  - exists (VStr "networkInterfaceId"). repeat split; reflexivity.
Defined.

(** Two attachments that each name an interface, and a third that names
    none: the second decides. *)
Lemma scan_attachments_last_named_witness :
  find_eni_id
    (VDict [("attachments",
             VList [attachment_of [eni_detail];
                    attachment_of [subnet_detail; later_eni_detail];
                    attachment_of [subnet_detail]])]) = Ok (VStr "eni-2").
Proof.
  unfold find_eni_id; simpl get; simpl iter; cbn [and_then].
  apply (scan_attachments_last_named
           [attachment_of [eni_detail]] [attachment_of [subnet_detail]]
           [subnet_detail] [] (attachment_of [subnet_detail; later_eni_detail])
           later_eni_detail (VStr "eni-2") VNone (VStr "eni-1")).
  - reflexivity.
  - reflexivity.
  - constructor; [| constructor].
    exists (VStr "subnetId"). split; reflexivity.
  - exists (VStr "networkInterfaceId"). repeat split; reflexivity.
  - constructor; [| constructor].
    exists [subnet_detail]. split; [reflexivity |].
    constructor; [| constructor].
    exists (VStr "subnetId"). split; reflexivity.
Defined.

(** Pending at 0 and 6 seconds, running at 12: three calls, two sleeps. *)
Lemma wait_returns_when_running_witness :
  exists w',
    wait (VStr "MinecraftCluster") [VStr "arn:aws:ecs:::task/1"] 6 20
      booting_world = (Ok tt, w') /\
    calls w' =
      (calls booting_world ++
       polls 3 (VStr "MinecraftCluster") [VStr "arn:aws:ecs:::task/1"] 6)%list /\
    clock w' = clock booting_world + 6 * Z.of_nat 2.
Proof.
  apply (wait_returns_when_running (VStr "MinecraftCluster")
           [VStr "arn:aws:ecs:::task/1"] 6 20 2 booting_world).
  - lia.
  - intros i Hi. destruct i as [| [| i]]; [| | lia];
      eexists; split; reflexivity.
  - eexists; split; reflexivity.
Defined.

Lemma handlers_missing_key_witness :
  get_ip_handler ∅ (VDict []) (sample_world [] VNone VNone) =
    (Raise (KeyError (VStr "cluster")), sample_world [] VNone VNone) /\
  backup_handler sample_deployment ∅ (VDict []) (sample_world [] VNone VNone) =
    (Raise (KeyError (VStr "cluster")), sample_world [] VNone VNone).
Proof.
  apply (handlers_missing_key sample_deployment ∅ [] "cluster").
  - left. reflexivity.
  - reflexivity.
Defined.

Lemma next_time_valid : valid next_time.
Proof. unfold valid, next_time; simpl. lia. Qed.

(** Two snapshots one microsecond apart. *)
Lemma backup_key_injective_witness :
  backup_key (isoformat sample_time) <> backup_key (isoformat next_time).
Proof.
  intros Hkey.
  pose proof (backup_key_injective sample_time next_time
                sample_time_valid next_time_valid Hkey) as Heq.
  discriminate Heq.
Defined.

(** The execution the API starts, on the sample world. *)
Lemma start_sequence_in_order_witness :
  ["StartTask"; "WaitForTask"; "GetIP"] `prefix_of`
    ["StartTask"; "WaitForTask"; "GetIP"; "UpdateDNS"; "ServerReady"].
Proof.
  apply (start_sequence_in_order (start_task_lambda sample_deployment)
           get_ip_lambda (update_dns_lambda sample_deployment) (VDict [])
           (sample_world [] VNone VNone)
           (advance 30
              (set_desired ("MinecraftCluster", "MinecraftService") 1
                 (log (UpdateService "MinecraftCluster" "MinecraftService" 1)
                    (sample_world [] VNone VNone))))
           (Failed "GetIP" (TaskFailed (KeyError (VStr "cluster"))))
           ["StartTask"; "WaitForTask"; "GetIP"]).
  reflexivity.
Defined.

Lemma start_execution_scales_up_witness :
  desired sample_deployment
    (snd (execute (start_state_machine sample_deployment) (VDict [])
            (sample_world [] VNone VNone))) = Some 1.
Proof.
  destruct (start_execution_scales_up sample_deployment []
              (sample_world [] VNone VNone) 1 eq_refl) as [Hrun Hdesired].
  rewrite Hrun. exact Hdesired.
Defined.

Lemma stop_execution_scales_down_witness :
  exists output,
    execute (stop_state_machine sample_deployment) task_event
      (sample_world [VStr "arn:aws:ecs:::task/1"] VNone VNone) =
      (Succeeded output, ["BackupWorld"; "StopTask"; "ServerStopped"],
       set_desired ("MinecraftCluster", "MinecraftService") 0
         (log (UpdateService "MinecraftCluster" "MinecraftService" 0)
            (sample_world [VStr "arn:aws:ecs:::task/1"] VNone VNone))) /\
    get_path ["backupInfo"; "Payload"; "backupKey"] output =
      Some (VStr "backups/world-2024-03-09T07:05:00.001234.tar.gz").
Proof.
  destruct (stop_execution_scales_down sample_deployment
              [("cluster", VStr "MinecraftCluster");
               ("taskArn", VStr "arn:aws:ecs:::task/1")]
              (VStr "MinecraftCluster") (VStr "arn:aws:ecs:::task/1")
              (sample_world [VStr "arn:aws:ecs:::task/1"] VNone VNone) 1
              eq_refl eq_refl eq_refl) as (output & Hrun & _ & Hkey).
  exists output. split; [exact Hrun | exact Hkey].
Defined.

(** Nothing configured, and an empty deploy variable. *)
Lemma region_never_empty_witness :
  App.region ∅ (<["CDK_DEPLOY_REGION" := EmptyString]> ∅) = VStr "us-east-1".
Proof.
  apply (proj2 (region_never_empty ∅ (<["CDK_DEPLOY_REGION" := EmptyString]> ∅))).
  - reflexivity.
  - right. reflexivity.
  - left. reflexivity.
Defined.

(** An empty region in the context, and a deploy variable. *)
Lemma region_from_deploy_variable_witness :
  App.region (<["region" := VStr EmptyString]> ∅)
    (<["CDK_DEPLOY_REGION" := "eu-west-1"]>
       (<["CDK_DEFAULT_REGION" := "us-west-2"]> ∅)) = VStr "eu-west-1".
Proof.
  apply region_from_deploy_variable.
  - reflexivity.
  - reflexivity.
  - discriminate.
Defined.

(** Nothing configured at all. *)
Lemma stack_id_without_context_prefix_witness :
  App.stack_id ∅ ∅ = "NoneMinecraftServer".
Proof.
  rewrite stack_id_without_context_prefix by reflexivity. reflexivity.
Defined.

Lemma scale_sequence_frame_witness :
  calls (settle sample_deployment [(Start, VDict []); (Stop, VDict [])]
           (sample_world [] VNone VNone)) =
  [UpdateService "MinecraftCluster" "MinecraftService" 1;
   UpdateService "MinecraftCluster" "MinecraftService" 0].
Proof.
  apply (scale_sequence_frame sample_deployment
           [(Start, VDict []); (Stop, VDict [])]
           (sample_world [] VNone VNone) 1 eq_refl).
Defined.
